(** * jp-prev-bizday: the previous Japanese business day

  A shallow embedding of [main.go].  The program parses a base date, walks
  backwards one calendar day at a time (at most 30 days), asks a remote
  holiday service about every candidate that is not a Saturday or Sunday,
  and prints the first candidate that is neither a weekend nor a holiday.

  Layout of the development:
  - [time]    : the part of Go's [time] package the program calls
                ([Time], [Date], [AddDate], [Weekday], [Parse] for the
                layout ["2006-01-02"]);
  - [Effects] : a writer monad recording what the program does to the
                outside world (candidates examined, HTTP queries, output);
  - [Main]    : the functions of [main.go], in source order;
  - the theorems about them. *)

From Stdlib Require Import ZArith List String Ascii Bool Lia.
Import ListNotations.

Local Open Scope Z_scope.

(* ================================================================= *)
(** ** Package [time] *)

Module time.

(** A location is modelled as a fixed offset east of UTC, in seconds.  The
    two locations the program ever uses, UTC (dates given on the command
    line) and Asia/Tokyo (today's date), have no daylight-saving rules in
    the period the tool is used for. *)
Record Location : Type := mkLocation {
  zoneName : string;
  zoneOffset : Z
}.

Definition UTC : Location := mkLocation "UTC" 0.

(** [time.Time]: an instant, counted in nanoseconds since
    January 1, year 1, 00:00:00 UTC, and the location it is shown in. *)
Record Time : Type := mkTime {
  inst : Z;
  loc : Location
}.

(** The zero value [time.Time{}]. *)
Definition zero : Time := mkTime 0 UTC.

Definition nsPerSecond : Z := 1000000000.
Definition secondsPerDay : Z := 86400.
Definition nsPerDay : Z := secondsPerDay * nsPerSecond.

Definition daysPer400Years : Z := 146097.
Definition daysPer100Years : Z := 36524.
Definition daysPer4Years : Z := 1461.

(** [time.Weekday]; [Sunday] is 0 as in Go. *)
Inductive Weekday : Type :=
| Sunday | Monday | Tuesday | Wednesday | Thursday | Friday | Saturday.

Definition Weekday_eqb (a b : Weekday) : bool :=
  match a, b with
  | Sunday, Sunday | Monday, Monday | Tuesday, Tuesday
  | Wednesday, Wednesday | Thursday, Thursday | Friday, Friday
  | Saturday, Saturday => true
  | _, _ => false
  end.

Definition Weekday_of_Z (n : Z) : Weekday :=
  match n with
  | 0 => Sunday | 1 => Monday | 2 => Tuesday | 3 => Wednesday
  | 4 => Thursday | 5 => Friday | _ => Saturday
  end.

(** Wall-clock nanoseconds since January 1, year 1, 00:00:00 in the
    time's own location ([t.abs()], at nanosecond resolution). *)
Definition abs (t : Time) : Z := inst t + zoneOffset (loc t) * nsPerSecond.

(** The number of whole days in [abs t]. *)
Definition absDays (t : Time) : Z := abs t / nsPerDay.

(** Nanoseconds since local midnight. *)
Definition absClock (t : Time) : Z := abs t mod nsPerDay.

(** [t.Weekday()]: January 1 of year 1 was a Monday. *)
Definition weekdayOfDays (d : Z) : Weekday := Weekday_of_Z ((d + 1) mod 7).

Definition Weekday_ (t : Time) : Weekday := weekdayOfDays (absDays t).

(** [isLeap]; Go's [%] truncates, as [Z.rem] does. *)
Definition isLeap (year : Z) : bool :=
  (Z.rem year 4 =? 0) && (negb (Z.rem year 100 =? 0) || (Z.rem year 400 =? 0)).

(** [daysBefore[m]]: days in a non-leap year before month [m+1]. *)
Definition daysBeforeTable : list Z :=
  [0; 31; 59; 90; 120; 151; 181; 212; 243; 273; 304; 334; 365].

Definition daysBefore (m : Z) : Z := nth (Z.to_nat m) daysBeforeTable 0.

(** [daysIn(m, year)]. *)
Definition daysIn (m year : Z) : Z :=
  if (m =? 2) && isLeap year then 29
  else daysBefore m - daysBefore (m - 1).

(** Position of a day inside its 400-year cycle: the year of the cycle
    (0..399) and the day of that year (0-based), cutting off 100-year,
    4-year and 1-year cycles as [absDate] does. *)
Definition cycleYearDay (d : Z) : Z * Z :=
  let n100 := d / daysPer100Years in
  let n100 := n100 - Z.shiftr n100 2 in
  let y := 100 * n100 in
  let d := d - daysPer100Years * n100 in
  let n4 := d / daysPer4Years in
  let y := y + 4 * n4 in
  let d := d - daysPer4Years * n4 in
  let n := d / 365 in
  let n := n - Z.shiftr n 2 in
  let y := y + n in
  let d := d - 365 * n in
  (y, d).

(** Month and day of the month from the day of the year. *)
Definition monthDay (year yday : Z) : Z * Z :=
  let leapday := isLeap year && (yday =? 31 + 29 - 1) in
  if leapday then (2, 29)
  else
    let day := if isLeap year && (yday >? 31 + 29 - 1) then yday - 1 else yday in
    let month := day / 31 in
    let end_ := daysBefore (month + 1) in
    if day >=? end_
    then (month + 2, day - end_ + 1)
    else (month + 1, day - daysBefore month + 1).

(** Year, month, day of a day count ([absDate] followed by the month
    search of [Time.date]). *)
Definition civil (days : Z) : Z * Z * Z :=
  let n := days / daysPer400Years in
  let '(y, yday) := cycleYearDay (days mod daysPer400Years) in
  let year := 400 * n + y + 1 in
  let '(month, day) := monthDay year yday in
  (year, month, day).

(** [t.Date()]. *)
Definition dateOf (t : Time) : Z * Z * Z := civil (absDays t).

Definition Year (t : Time) : Z := fst (fst (dateOf t)).
Definition Month (t : Time) : Z := snd (fst (dateOf t)).
Definition Day (t : Time) : Z := snd (dateOf t).

(** [t.Clock()] and [t.Nanosecond()]. *)
Definition Hour (t : Time) : Z := absClock t / (3600 * nsPerSecond).
Definition Minute (t : Time) : Z := (absClock t / (60 * nsPerSecond)) mod 60.
Definition Second (t : Time) : Z := (absClock t / nsPerSecond) mod 60.
Definition Nanosecond (t : Time) : Z := absClock t mod nsPerSecond.

(** [daysSinceEpoch(year)]: days from January 1, year 1, to January 1 of
    [year]. *)
Definition daysSinceEpoch (year : Z) : Z :=
  let y := year - 1 in
  let n := y / 400 in
  let y := y - 400 * n in
  let d := daysPer400Years * n in
  let n := y / 100 in
  let y := y - 100 * n in
  let d := d + daysPer100Years * n in
  let n := y / 4 in
  let y := y - 4 * n in
  let d := d + daysPer4Years * n in
  d + 365 * y.

(** Day count of a (year, month, day) triple, as [time.Date] computes it:
    the month overflows into the year, the day is simply added, so values
    outside the month (day 0, day 32) roll over. *)
Definition dayCount (year month day : Z) : Z :=
  let m := month - 1 in
  let year := year + m / 12 in
  let month := m mod 12 + 1 in
  let d := daysSinceEpoch year + daysBefore (month - 1) in
  let d := if isLeap year && (month >=? 3) then d + 1 else d in
  d + (day - 1).

(** [time.Date(year, month, day, hour, min, sec, nsec, loc)]. *)
Definition Date (year month day hour min sec nsec : Z) (l : Location) : Time :=
  let wall :=
    (dayCount year month day * secondsPerDay + hour * 3600 + min * 60 + sec)
    * nsPerSecond + nsec in
  mkTime (wall - zoneOffset l * nsPerSecond) l.

(** [t.AddDate(years, months, days)]. *)
Definition AddDate (t : Time) (years months days : Z) : Time :=
  let '(year, month, day) := dateOf t in
  Date (year + years) (month + months) (day + days)
       (Hour t) (Minute t) (Second t) (Nanosecond t) (loc t).

(** [t.Before(u)] and [t.In(loc)]. *)
Definition Before (t u : Time) : Prop := inst t < inst u.
Definition In_ (t : Time) (l : Location) : Time := mkTime (inst t) l.


(** *** [time.Parse] for the layout ["2006-01-02"]

    The layout splits into the chunks [stdLongYear], ["-"], [stdZeroMonth],
    ["-"], [stdZeroDay]; the functions below are the helpers [Parse] runs
    on them. *)

Inductive ParseError : Type :=
| errBad            (* the value does not match the layout *)
| errMonthRange     (* ": month out of range" *)
| errDayRange       (* ": day out of range" *)
| errExtraText.     (* ": extra text: ..." *)

Definition isDigitByte (c : ascii) : bool :=
  let n := Z.of_N (N_of_ascii c) in (48 <=? n) && (n <=? 57).

Definition byteVal (c : ascii) : Z := Z.of_N (N_of_ascii c) - 48.

(** [isDigit(s, i)]: false past the end of [s]. *)
Definition isDigit (s : string) (i : nat) : bool :=
  match String.get i s with
  | Some c => isDigitByte c
  | None => false
  end.

(** [leadingInt]: the digits at the front of [s] and the rest. *)
Fixpoint leadingInt (s : string) (x : Z) : Z * string :=
  match s with
  | String c rest =>
      if isDigitByte c then leadingInt rest (x * 10 + byteVal c) else (x, s)
  | EmptyString => (x, s)
  end.

(** [atoi]: an optional sign, then digits and nothing else. *)
Definition atoi (s : string) : option Z :=
  let '(neg, s) :=
    match s with
    | String "-" rest => (true, rest)
    | String "+" rest => (false, rest)
    | _ => (false, s)
    end in
  let '(q, rem) := leadingInt s 0 in
  match rem with
  | EmptyString => Some (if neg then - q else q)
  | String _ _ => None
  end.

(** [getnum(s, fixed)]: one or two digits; exactly two when [fixed]. *)
Definition getnum (s : string) (fixed : bool) : option (Z * string) :=
  match s with
  | String a rest =>
      if negb (isDigitByte a) then None
      else
        match rest with
        | String b rest' =>
            if isDigitByte b then Some (byteVal a * 10 + byteVal b, rest')
            else if fixed then None else Some (byteVal a, rest)
        | EmptyString => if fixed then None else Some (byteVal a, rest)
        end
  | EmptyString => None
  end.

(** [skip(value, "-")]. *)
Definition skipDash (value : string) : option string :=
  match value with
  | String "-" rest => Some rest
  | _ => None
  end.

(** [time.Parse("2006-01-02", value)].  On failure Go returns the zero
    [Time] and a non-nil error. *)
Definition Parse_2006_01_02 (value : string) : Time * option ParseError :=
  let fail (e : ParseError) := (zero, Some e) in
  if (String.length value <? 4)%nat || negb (isDigit value 0) then fail errBad
  else
    match atoi (substring 0 4 value) with
    | None => fail errBad
    | Some year =>
      match skipDash (substring 4 (String.length value - 4) value) with
      | None => fail errBad
      | Some value =>
        match getnum value true with
        | None => fail errBad
        | Some (month, value) =>
          if (month <=? 0) || (12 <? month) then fail errMonthRange
          else
            match skipDash value with
            | None => fail errBad
            | Some value =>
              match getnum value true with
              | None => fail errBad
              | Some (day, value) =>
                match value with
                | String _ _ => fail errExtraText
                | EmptyString =>
                    if (day <? 1) || (daysIn month year <? day)
                    then fail errDayRange
                    else (Date year month day 0 0 0 0 UTC, None)
                end
              end
            end
        end
      end
    end.

End time.

(* ================================================================= *)
(** ** A checker for the calendar functions *)

Module CalendarCheck.
Import time.

(** The property checked on one 400-year cycle: the date of day [r] is a
    valid date of a year 1..400, and counting its days gives [r] back. *)
Definition okCycle (r : Z) : bool :=
  let '(year, month, day) := civil r in
  (1 <=? year) && (year <=? 400)
  && (1 <=? month) && (month <=? 12)
  && (1 <=? day) && (day <=? daysIn month year)
  && (dayCount year month day =? r).

Definition sweepStep (st : Z * bool) : Z * bool :=
  (fst st + 1, snd st && okCycle (fst st)).

(** [sweep n] checks the days [0 .. n-1]. *)
Definition sweep (n : positive) : Z * bool := Pos.iter sweepStep (0, true) n.

End CalendarCheck.

(* ================================================================= *)
(** ** The outside world *)

Module Effects.
Import time.

(** [HolidayResponse]: the decoded JSON body of the holiday API. *)
Record HolidayResponse : Type := mkHolidayResponse {
  Holiday : bool;
  Name : string
}.

(** What [json.NewDecoder(resp.Body).Decode(&holiday)] makes of a body. *)
Inductive Body : Type :=
| Malformed (cause : string)
| Decoded (holiday : HolidayResponse).

(** What [client.Get(url)] gives: a transport error (network, timeout), or
    a response with its status code and body. *)
Inductive HttpResult : Type :=
| GetFailed (cause : string)
| Response (StatusCode : Z) (body : Body).

(** The holiday service, keyed by the year, month and day the URL
    [https://jp-holiday.net/api/v1/holiday/%d/%02d/%02d] is built from. *)
Definition Oracle : Type := Z -> Z -> Z -> HttpResult.

Definition StatusOK : Z := 200.

(** The error values of the program.  The comments give the message
    formats of [fmt.Errorf]; [%w] wraps the cause. *)
Inductive error : Type :=
| ErrAPICall (cause : string)     (* "API呼び出しエラー: %w" *)
| ErrAPIStatus (code : Z)         (* "APIエラー: ステータスコード %d" *)
| ErrJSONParse (cause : string)   (* "JSONパースエラー: %w" *)
| ErrBizDayCheck (cause : error)  (* "営業日判定エラー: %w" *)
| ErrNotFound.                    (* "営業日が見つかりませんでした" *)

(** What is written to the standard streams. *)
Inductive Output : Type :=
| HelpText                                         (* [printHelp] *)
| InvalidDateFormat (dateStr : string)             (* "エラー: 無効な日付形式です: %s" *)
| ErrorReport (err : error)                        (* "エラー: %v" *)
| DateLine (year month day : Z)                    (* "%s\n" *)
| BaseLine (year month day : Z) (weekday : string) (* "基準日: %s (%s)\n" *)
| ResultLine (year month day : Z) (weekday : string). (* "直前の営業日: %s (%s)\n" *)

(** What a run does, in order.  [Probe] marks a call of [isBusinessDay] on
    a candidate; the other events are the program's input and output. *)
Inductive Event : Type :=
| Probe (candidate : Time)
| HttpGet (year month day : Z)
| Stdout (o : Output)
| Stderr (o : Output).

(** A computation returns a value and the events it caused. *)
Definition M (A : Type) : Type := (A * list Event)%type.

Definition ret {A : Type} (a : A) : M A := (a, []).

Definition bind {A B : Type} (m : M A) (k : A -> M B) : M B :=
  let '(a, w) := m in
  let '(b, w') := k a in
  (b, w ++ w').

Definition emit (e : Event) : M unit := (tt, [e]).

Definition result {A : Type} (m : M A) : A := fst m.
Definition trace {A : Type} (m : M A) : list Event := snd m.

End Effects.

Declare Scope prog_scope.
Delimit Scope prog_scope with prog.
Notation "x <- m ;; k" := (Effects.bind m (fun x => k))
  (at level 61, m at next level, right associativity) : prog_scope.
Notation "' p <- m ;; k" := (Effects.bind m (fun x => match x with p => k end))
  (at level 61, p pattern, m at next level, right associativity) : prog_scope.
Notation "m ;; k" := (Effects.bind m (fun _ => k))
  (at level 61, right associativity) : prog_scope.

(* ================================================================= *)
(** ** [main.go] *)

Module Main.
Import time Effects.
Local Open Scope prog_scope.

(** The flags after [flag.Parse()]. *)
Record Flags : Type := mkFlags {
  dateStr : string;
  verbose : bool;
  help : bool
}.

(** What [main] reads from its surroundings: the clock, and the Asia/Tokyo
    location if the time zone database has it. *)
Record Env : Type := mkEnv {
  Now : Time;
  LoadTokyo : option Location
}.

(** How the process ends: [os.Exit(code)] (returning from [main] is
    status 0), or a panic ([Time.In] on a nil location). *)
Inductive Exit : Type :=
| ExitStatus (code : Z)
| Panic.

(** [weekdayJP] *)
Definition weekdayJP (w : Weekday) : string :=
  match w with
  | Sunday => "日"
  | Monday => "月"
  | Tuesday => "火"
  | Wednesday => "水"
  | Thursday => "木"
  | Friday => "金"
  | Saturday => "土"
  end.

(** [printHelp] *)
Definition printHelp : M unit := emit (Stdout HelpText).

(** [isWeekend] *)
Definition isWeekend (date : Time) : bool :=
  let weekday := Weekday_ date in
  Weekday_eqb weekday Saturday || Weekday_eqb weekday Sunday.

(** [outputSimple] *)
Definition outputSimple (date : Time) : M unit :=
  emit (Stdout (DateLine (Year date) (Month date) (Day date))).

(** [outputVerbose] *)
Definition outputVerbose (baseDate businessDay : Time) : M unit :=
  emit (Stdout (BaseLine (Year baseDate) (Month baseDate) (Day baseDate)
                         (weekdayJP (Weekday_ baseDate)))) ;;
  emit (Stdout (ResultLine (Year businessDay) (Month businessDay) (Day businessDay)
                           (weekdayJP (Weekday_ businessDay)))).

Section WithOracle.

Variable oracle : Oracle.

(** [client.Get(url)] *)
Definition httpGet (year month day : Z) : M HttpResult :=
  emit (HttpGet year month day) ;;
  ret (oracle year month day).

(** [checkHoliday] *)
Definition checkHoliday (date : Time) : M (bool * string * option error) :=
  resp <- httpGet (Year date) (Month date) (Day date) ;;
  match resp with
  | GetFailed cause => ret (false, EmptyString, Some (ErrAPICall cause))
  | Response StatusCode body =>
      if negb (StatusCode =? StatusOK)
      then ret (false, EmptyString, Some (ErrAPIStatus StatusCode))
      else
        match body with
        | Malformed cause => ret (false, EmptyString, Some (ErrJSONParse cause))
        | Decoded holiday => ret (Holiday holiday, Name holiday, None)
        end
  end.

(** [isBusinessDay] *)
Definition isBusinessDay (date : Time) : M (bool * option error) :=
  emit (Probe date) ;;
  if isWeekend date then ret (false, None)
  else
    '(isHoliday, _, err) <- checkHoliday date ;;
    match err with
    | Some e => ret (false, Some e)
    | None => ret (negb isHoliday, None)
    end.

Definition maxDays : nat := 30.

(** The loop [for i := 0; i < maxDays; i++] of [findPreviousBusinessDay];
    [remaining] is [maxDays - i]. *)
Fixpoint scan (remaining : nat) (current : Time) : M (Time * option error) :=
  match remaining with
  | O => ret (zero, Some ErrNotFound)
  | S remaining' =>
      '(isBizDay, err) <- isBusinessDay current ;;
      match err with
      | Some e => ret (zero, Some (ErrBizDayCheck e))
      | None =>
          if isBizDay then ret (current, None)
          else scan remaining' (AddDate current 0 0 (-1))
      end
  end.

(** [findPreviousBusinessDay] *)
Definition findPreviousBusinessDay (from : Time) : M (Time * option error) :=
  let current := AddDate from 0 0 (-1) in
  scan maxDays current.

(** [main], from the parsed flags on. *)
Definition main (env : Env) (flags : Flags) : M Exit :=
  if help flags then
    printHelp ;;
    ret (ExitStatus 0)
  else
    let continue (baseDate : Time) : M Exit :=
      '(prevBizDay, err) <- findPreviousBusinessDay baseDate ;;
      match err with
      | Some e =>
          emit (Stderr (ErrorReport e)) ;;
          ret (ExitStatus 1)
      | None =>
          (if verbose flags
           then outputVerbose baseDate prevBizDay
           else outputSimple prevBizDay) ;;
          ret (ExitStatus 0)
      end in
    if String.eqb (dateStr flags) EmptyString then
      match LoadTokyo env with
      | None => ret Panic
      | Some jst => continue (In_ (Now env) jst)
      end
    else
      let '(baseDate, err) := Parse_2006_01_02 (dateStr flags) in
      match err with
      | Some _ =>
          emit (Stderr (InvalidDateFormat (dateStr flags))) ;;
          ret (ExitStatus 1)
      | None => continue baseDate
      end.

End WithOracle.

End Main.

(* ================================================================= *)
(** ** Vocabulary of the specification *)

Module Props.
Import time Effects Main.

(** The [k]-th calendar day before [from], at the same time of day. *)
Definition daysBefore_ (from : Time) (k : Z) : Time := AddDate from 0 0 (- k).

(** The year, month and day the holiday URL of a date is built from. *)
Definition ymd (t : Time) : Z * Z * Z := (Year t, Month t, Day t).

Section WithOracle.

Variable oracle : Oracle.

(** What [checkHoliday] returns for a given answer of the service. *)
Definition holidayCheck (resp : HttpResult) : bool * string * option error :=
  match resp with
  | GetFailed cause => (false, EmptyString, Some (ErrAPICall cause))
  | Response StatusCode body =>
      if negb (StatusCode =? StatusOK)
      then (false, EmptyString, Some (ErrAPIStatus StatusCode))
      else
        match body with
        | Malformed cause => (false, EmptyString, Some (ErrJSONParse cause))
        | Decoded holiday => (Holiday holiday, Name holiday, None)
        end
  end.

(** The service's answer for the calendar date of [date]. *)
Definition reply (date : Time) : HttpResult :=
  oracle (Year date) (Month date) (Day date).

(** [Some b]: the oracle call for that date succeeds and reports
    [holiday = b]; [None]: the call fails. *)
Definition reportedYMD (year month day : Z) : option bool :=
  let '(isHoliday, _, err) := holidayCheck (oracle year month day) in
  match err with
  | Some _ => None
  | None => Some isHoliday
  end.

Definition reported (date : Time) : option bool :=
  reportedYMD (Year date) (Month date) (Day date).

(** The error of a failing oracle call. *)
Definition callError (date : Time) : option error :=
  snd (holidayCheck (reply date)).

(** A business day: not a Saturday or Sunday, and the oracle reports it
    as not a holiday. *)
Definition businessDay (date : Time) : bool :=
  negb (isWeekend date)
  && match reported date with Some false => true | _ => false end.

(** The outcome of one loop iteration on a candidate. *)
Inductive Verdict : Type :=
| Rejected
| Accepted
| Failed (e : error).

Definition verdict (date : Time) : Verdict :=
  if isWeekend date then Rejected
  else
    let '(isHoliday, _, err) := holidayCheck (reply date) in
    match err with
    | Some e => Failed e
    | None => if isHoliday then Rejected else Accepted
    end.

(** The events of one loop iteration on a candidate. *)
Definition probeEvents (date : Time) : list Event :=
  Probe date ::
  (if isWeekend date then [] else [HttpGet (Year date) (Month date) (Day date)]).

(** The candidates [current], [current - 1 day], ..., [n] of them. *)
Definition candidates (current : Time) (n : nat) : list Time :=
  map (fun j => daysBefore_ current (Z.of_nat j)) (seq 0 n).

(** The [n] calendar days before [from], nearest first: the candidates
    of [findPreviousBusinessDay]. *)
Definition preceding (from : Time) (n : nat) : list Time :=
  map (fun j => daysBefore_ from (1 + Z.of_nat j)) (seq 0 n).

(** The candidates a trace shows as examined, and the dates it queried. *)
Definition probed (tr : list Event) : list Time :=
  flat_map (fun e => match e with Probe c => [c] | _ => [] end) tr.

Definition queried (tr : list Event) : list (Z * Z * Z) :=
  flat_map (fun e => match e with HttpGet y m d => [(y, m, d)] | _ => [] end) tr.

(** Every oracle call of a trace succeeded. *)
Definition callsSucceed (tr : list Event) : Prop :=
  forall y m d, In (y, m, d) (queried tr) -> reportedYMD y m d <> None.

(** How a run of the loop over at most [n] candidates from [cur] ends:
    all [n] candidates rejected; or the candidate number [q] (from 0)
    accepted after [q] rejections; or the oracle call for candidate [q]
    failing after [q] rejections.  In each case the events are those of the
    candidates examined, in order. *)
Inductive ScanRun (cur : Time) (n : nat) (r : M (Time * option error)) : Prop :=
| RunExhausted :
    (forall j, (j < n)%nat -> verdict (daysBefore_ cur (Z.of_nat j)) = Rejected) ->
    r = ((zero, Some ErrNotFound), flat_map probeEvents (candidates cur n)) ->
    ScanRun cur n r
| RunFound (q : nat) :
    (q < n)%nat ->
    (forall j, (j < q)%nat -> verdict (daysBefore_ cur (Z.of_nat j)) = Rejected) ->
    verdict (daysBefore_ cur (Z.of_nat q)) = Accepted ->
    r = ((daysBefore_ cur (Z.of_nat q), None), flat_map probeEvents (candidates cur (S q))) ->
    ScanRun cur n r
| RunFailed (q : nat) (e : error) :
    (q < n)%nat ->
    (forall j, (j < q)%nat -> verdict (daysBefore_ cur (Z.of_nat j)) = Rejected) ->
    verdict (daysBefore_ cur (Z.of_nat q)) = Failed e ->
    r = ((zero, Some (ErrBizDayCheck e)), flat_map probeEvents (candidates cur (S q))) ->
    ScanRun cur n r.

End WithOracle.

(** Two answers that differ at most in the [name] field of the body. *)
Definition sameUpToName (r1 r2 : HttpResult) : Prop :=
  match r1, r2 with
  | GetFailed c1, GetFailed c2 => c1 = c2
  | Response s1 (Malformed c1), Response s2 (Malformed c2) => s1 = s2 /\ c1 = c2
  | Response s1 (Decoded h1), Response s2 (Decoded h2) =>
      s1 = s2 /\ Holiday h1 = Holiday h2
  | _, _ => False
  end.

(** [main] rejects the [-date] argument: it exits with status 1 with the
    invalid-date message on standard error, and has neither queried the
    oracle nor examined a candidate. *)
Definition reportsInvalidDate (oracle : Oracle) (env : Env) (flags : Flags) : Prop :=
  result (main oracle env flags) = ExitStatus 1
  /\ In (Stderr (InvalidDateFormat (dateStr flags))) (trace (main oracle env flags))
  /\ queried (trace (main oracle env flags)) = []
  /\ probed (trace (main oracle env flags)) = [].

End Props.

(* ================================================================= *)
(** ** Sample services and dates *)

Module Samples.
Import time Effects Main.

Definition JST : Location := mkLocation "Asia/Tokyo" 32400.

Definition day (y m d : Z) : Time := Date y m d 0 0 0 0 UTC.

Definition notHoliday : HttpResult :=
  Response 200 (Decoded (mkHolidayResponse false EmptyString)).

Definition holiday (name : string) : HttpResult :=
  Response 200 (Decoded (mkHolidayResponse true name)).

(** A service that knows no holidays. *)
Definition noHolidays : Oracle := fun _ _ _ => notHoliday.

(** July 2025: Marine Day falls on Monday the 21st. *)
Definition july2025 : Oracle := fun y m d =>
  if (y =? 2025) && (m =? 7) && (d =? 21) then holiday "Marine Day" else notHoliday.

(** The same with other names in the bodies. *)
Definition july2025' : Oracle := fun y m d =>
  if (y =? 2025) && (m =? 7) && (d =? 21) then holiday "Umi no Hi"
  else Response 200 (Decoded (mkHolidayResponse false "weekday")).

(** A service that calls every day a holiday. *)
Definition allHolidays : Oracle := fun _ _ _ => holiday "holiday".

(** A service that times out on the 18th of a month. *)
Definition outage : Oracle := fun y m d =>
  if d =? 18 then GetFailed "timeout" else july2025 y m d.

(** The machine of a user in Tokyo on 2025-07-22. *)
Definition tokyoEnv : Env := mkEnv (day 2025 7 22) (Some JST).

Definition dateFlag (s : string) : Flags := mkFlags s false false.

End Samples.

(* ================================================================= *)
(** ** What a user observes of a run *)

Module Observe.
Import time Effects Main Props.

(** The lines written to standard output and to standard error. *)
Definition stdoutOf (tr : list Event) : list Output :=
  flat_map (fun e => match e with Stdout o => [o] | _ => [] end) tr.

Definition stderrOf (tr : list Event) : list Output :=
  flat_map (fun e => match e with Stderr o => [o] | _ => [] end) tr.

(** The events seen from outside the process: everything but the marks
    of the candidates, which carry the time of day of the base date. *)
Definition observable (tr : list Event) : list Event :=
  filter (fun e => match e with Probe _ => false | _ => true end) tr.

(** The base date [main] searches from, when it gets that far: today's
    date in Tokyo for an empty [-date], the parsed date otherwise. *)
Definition baseDateOf (env : Env) (flags : Flags) : option Time :=
  if String.eqb (dateStr flags) EmptyString then
    match LoadTokyo env with
    | Some jst => Some (In_ (Now env) jst)
    | None => None
    end
  else
    match Parse_2006_01_02 (dateStr flags) with
    | (baseDate, None) => Some baseDate
    | (_, Some _) => None
    end.

(** What [main] prints for a base date and the business day found. *)
Definition resultLines (flags : Flags) (baseDate prevBizDay : Time) : list Event :=
  if verbose flags then
    [Stdout (BaseLine (Year baseDate) (Month baseDate) (Day baseDate)
                      (weekdayJP (Weekday_ baseDate)));
     Stdout (ResultLine (Year prevBizDay) (Month prevBizDay) (Day prevBizDay)
                        (weekdayJP (Weekday_ prevBizDay)))]
  else
    [Stdout (DateLine (Year prevBizDay) (Month prevBizDay) (Day prevBizDay))].

(** The labels of Monday to Friday. *)
Definition workdayLabels : list string :=
  map weekdayJP [Monday; Tuesday; Wednesday; Thursday; Friday].

(** How many days before a day of the given weekday the nearest earlier
    day that is not a Saturday or Sunday lies. *)
Definition backToWeekday (w : Weekday) : Z :=
  match w with
  | Monday => 3
  | Sunday => 2
  | _ => 1
  end.

(** Whether the day [1 + j] days before a day whose day count is [r]
    modulo 7 is a Saturday or Sunday. *)
Definition weekendAt (r : Z) (j : nat) : bool :=
  let w := Weekday_of_Z (((r - (1 + Z.of_nat j)) mod 7 + 1) mod 7) in
  Weekday_eqb w Saturday || Weekday_eqb w Sunday.

(** The weekdays among the 30 days before such a day, at most. *)
Definition maxQueries (r : Z) : nat :=
  List.length (filter (fun j => negb (weekendAt r j)) (seq 0 30)).

End Observe.

(* ================================================================= *)
(** ** Years, and the text of a date *)

Module YearCheck.
Import time.

Definition yearLen (year : Z) : Z := if isLeap year then 366 else 365.

(** One year after another, checked on the years 0..399 of a cycle. *)
Definition okYear (y : Z) : bool :=
  daysSinceEpoch (y + 1) =? daysSinceEpoch y + yearLen y.

Definition yearStep (st : Z * bool) : Z * bool :=
  (fst st + 1, snd st && okYear (fst st)).

(** The day of the year of a valid month and day, from 0. *)
Definition yearDay (year month day : Z) : Z :=
  daysBefore (month - 1) + (if isLeap year && (month >=? 3) then 1 else 0) + day - 1.

(** Looks up the entries of [daysBefore] at the months at hand. *)
Ltac lookup_daysBefore :=
  repeat match goal with
    | |- context [daysBefore ?k] =>
        let v := eval vm_compute in (daysBefore k) in
        progress change (daysBefore k) with v
    | H : context [daysBefore ?k] |- _ =>
        let v := eval vm_compute in (daysBefore k) in
        progress change (daysBefore k) with v in H
    | |- context [?a >=? ?b] =>
        let v := eval vm_compute in (a >=? b) in
        progress change (a >=? b) with v
    | H : context [?a >=? ?b] |- _ =>
        let v := eval vm_compute in (a >=? b) in
        progress change (a >=? b) with v in H
    | H : context [?a =? ?b] |- _ =>
        let v := eval vm_compute in (a =? b) in
        progress change (a =? b) with v in H
    end;
  cbn [andb] in *.

(** One goal for each month [m], [1 <= m <= 12] being at hand. *)
Ltac split_month m :=
  let H := fresh "Hcase" in
  assert (H : m = 1 \/ m = 2 \/ m = 3 \/ m = 4 \/ m = 5 \/ m = 6
              \/ m = 7 \/ m = 8 \/ m = 9 \/ m = 10 \/ m = 11 \/ m = 12) by lia;
  repeat (destruct H as [H|H]; [subst m|]);
  try subst m.

End YearCheck.

Module timeFormat.
Import time.

Definition digitByte (d : Z) : ascii := ascii_of_N (Z.to_N (48 + d)).

(** The decimal digits of [u >= 0], put in front of [acc]. *)
Fixpoint digitsOf (fuel : nat) (u : Z) (acc : string) : string :=
  match fuel with
  | O => acc
  | S fuel' =>
      let acc := String (digitByte (u mod 10)) acc in
      if u / 10 =? 0 then acc else digitsOf fuel' (u / 10) acc
  end.

Fixpoint zeros (n : nat) (s : string) : string :=
  match n with
  | O => s
  | S n' => String "0" (zeros n' s)
  end.

(** [appendInt(b, x, width)]: [x] in decimal, with a sign when negative,
    padded with zeros to [width] digits. *)
Definition appendInt (x : Z) (width : nat) : string :=
  let u := Z.abs x in
  let ds := digitsOf (S (Z.to_nat (Z.log2 u))) u EmptyString in
  let padded := zeros (width - String.length ds) ds in
  if x <? 0 then String "-" padded else padded.

(** The text of a date in the layout ["2006-01-02"]. *)
Definition formatYMD (year month day : Z) : string :=
  (appendInt year 4 ++ String "-" (appendInt month 2 ++ String "-" (appendInt day 2)))%string.

(** [t.Format("2006-01-02")]. *)
Definition Format_2006_01_02 (t : Time) : string :=
  formatYMD (Year t) (Month t) (Day t).

(** A field of four or of two digits, and its value. *)
Definition digits4 (s : string) : option Z :=
  match s with
  | String a (String b (String c (String e EmptyString))) =>
      if isDigitByte a && isDigitByte b && isDigitByte c && isDigitByte e
      then Some (((byteVal a * 10 + byteVal b) * 10 + byteVal c) * 10 + byteVal e)
      else None
  | _ => None
  end.

Definition digits2 (s : string) : option Z :=
  match s with
  | String a (String b EmptyString) =>
      if isDigitByte a && isDigitByte b
      then Some (byteVal a * 10 + byteVal b)
      else None
  | _ => None
  end.

Definition okField4 (y : Z) : bool :=
  match digits4 (appendInt y 4) with
  | Some v => v =? y
  | None => false
  end.

Definition okField2 (v : Z) : bool :=
  match digits2 (appendInt v 2) with
  | Some w => w =? v
  | None => false
  end.

(** [checkUpTo ok n]: [ok] holds on [0 .. n-1]. *)
Definition checkStep (ok : Z -> bool) (st : Z * bool) : Z * bool :=
  (fst st + 1, snd st && ok (fst st)).

Definition checkUpTo (ok : Z -> bool) (n : positive) : Z * bool :=
  Pos.iter (checkStep ok) (0, true) n.

End timeFormat.

(* ================================================================= *)
(** ** Calendar arithmetic: [civil] and [dayCount] are inverse *)

Module Calendar.
Import time CalendarCheck.

Lemma sweep_sound (n : positive) :
  snd (sweep n) = true ->
  forall r, 0 <= r < fst (sweep n) -> okCycle r = true.
Proof.
  unfold sweep.
  apply (Pos.iter_invariant n _ sweepStep
           (fun st => snd st = true -> forall r, 0 <= r < fst st -> okCycle r = true)).
  - intros [k b] IH; cbn [sweepStep fst snd]; intros Hb r Hr.
    apply andb_true_iff in Hb as [Hb Hk].
    destruct (Z.eq_dec r k) as [->|Hne]; [exact Hk|].
    apply IH; [exact Hb | cbn [fst]; lia].
  - cbn [fst snd]; intros _ r Hr; lia.
Qed.

Lemma cycle_checked : sweep 146097 = (146097, true).
Proof. vm_compute. reflexivity. Qed.

Lemma okCycle_all (r : Z) : 0 <= r < 146097 -> okCycle r = true.
Proof.
  intros Hr. apply (sweep_sound 146097); rewrite cycle_checked; [reflexivity | exact Hr].
Qed.

Lemma rem_zero_shift (a k b : Z) :
  0 < b -> (Z.rem (b * k + a) b =? 0) = (Z.rem a b =? 0).
Proof.
  intros Hb.
  assert (E : forall x, (Z.rem x b =? 0) = (x mod b =? 0)).
  { intros x. destruct (Z.rem_mod_eq_0 x b ltac:(lia)) as [H1 H2].
    destruct (Z.eqb_spec (Z.rem x b) 0) as [e|e], (Z.eqb_spec (x mod b) 0) as [e'|e'];
      try reflexivity; [elim e'; auto | elim e; auto]. }
  rewrite !E. f_equal.
  rewrite Z.add_comm, Z.mul_comm. apply Z_mod_plus_full.
Qed.

Lemma isLeap_shift (n y : Z) : isLeap (400 * n + y) = isLeap y.
Proof.
  unfold isLeap.
  replace (400 * n + y) with (4 * (100 * n) + y) at 1 by lia.
  replace (400 * n + y) with (100 * (4 * n) + y) at 1 by lia.
  rewrite !rem_zero_shift by lia. reflexivity.
Qed.

Lemma daysSinceEpoch_shift (n y : Z) :
  daysSinceEpoch (400 * n + y) = 146097 * n + daysSinceEpoch y.
Proof.
  unfold daysSinceEpoch, daysPer400Years, daysPer100Years, daysPer4Years.
  replace (400 * n + y - 1) with ((y - 1) + n * 400) by lia.
  rewrite Z.div_add by lia.
  set (q := (y - 1) / 400).
  replace (y - 1 + n * 400 - 400 * (q + n)) with (y - 1 - 400 * q) by lia.
  lia.
Qed.

Lemma dayCount_shift (n y m d : Z) :
  dayCount (400 * n + y) m d = 146097 * n + dayCount y m d.
Proof.
  unfold dayCount.
  replace (400 * n + y + (m - 1) / 12) with (400 * n + (y + (m - 1) / 12)) by lia.
  rewrite isLeap_shift, daysSinceEpoch_shift.
  destruct (isLeap _ && _); lia.
Qed.

Lemma civil_shift (d : Z) :
  civil d =
  let '(y, m, dd) := civil (d mod 146097) in (400 * (d / 146097) + y, m, dd).
Proof.
  unfold civil, daysPer400Years.
  assert (Hm : 0 <= d mod 146097 < 146097) by (apply Z.mod_pos_bound; lia).
  rewrite (Z.mod_small (d mod 146097) 146097) by exact Hm.
  rewrite (Z.div_small (d mod 146097) 146097) by exact Hm.
  destruct (cycleYearDay (d mod 146097)) as [y yday].
  replace (400 * 0 + y + 1) with (y + 1) by lia.
  replace (400 * (d / 146097) + y + 1) with (400 * (d / 146097) + (y + 1)) by lia.
  unfold monthDay. rewrite isLeap_shift.
  destruct (isLeap (y + 1) && (yday =? 31 + 29 - 1)); [reflexivity|].
  destruct (_ >=? _); reflexivity.
Qed.

(** Every day count is the count of its own date, and that date is a
    valid calendar date. *)
Lemma civil_spec (d : Z) :
  let '(year, month, day) := civil d in
  1 <= month <= 12 /\ 1 <= day <= daysIn month year /\ dayCount year month day = d.
Proof.
  rewrite civil_shift.
  assert (Hm : 0 <= d mod 146097 < 146097) by (apply Z.mod_pos_bound; lia).
  pose proof (okCycle_all _ Hm) as Hok. unfold okCycle in Hok.
  destruct (civil (d mod 146097)) as [[y m] dd].
  repeat (apply andb_true_iff in Hok as [Hok ?]).
  rewrite dayCount_shift.
  unfold daysIn in *. rewrite isLeap_shift.
  pose proof (Z.div_mod d 146097 ltac:(lia)).
  repeat split; lia.
Qed.

Lemma dayCount_civil (d : Z) :
  let '(year, month, day) := civil d in dayCount year month day = d.
Proof.
  pose proof (civil_spec d) as H. destruct (civil d) as [[y m] dd]. tauto.
Qed.

(** The day argument of [time.Date] is added as it is. *)
Lemma dayCount_add (y m d k : Z) : dayCount y m (d + k) = dayCount y m d + k.
Proof. unfold dayCount. lia. Qed.


End Calendar.

(* ================================================================= *)
(** ** Facts about [time] *)

Module TimeFacts.
Import time Calendar.

Lemma nsPerDay_pos : 0 < nsPerDay.
Proof. reflexivity. Qed.

Lemma abs_split (t : Time) : abs t = absDays t * nsPerDay + absClock t.
Proof.
  unfold absDays, absClock. rewrite Z.mul_comm. apply Z.div_mod.
  pose proof nsPerDay_pos; lia.
Qed.

(** Hours, minutes, seconds and nanoseconds add up to the clock. *)
Lemma clock_split (t : Time) :
  (Hour t * 3600 + Minute t * 60 + Second t) * nsPerSecond + Nanosecond t = absClock t.
Proof.
  unfold Hour, Minute, Second, Nanosecond.
  set (c := absClock t). unfold nsPerSecond.
  set (s := c / 1000000000).
  assert (Hm : c / (60 * 1000000000) = s / 60).
  { unfold s. rewrite Z.div_div by lia. f_equal. }
  assert (Hh : c / (3600 * 1000000000) = s / 60 / 60).
  { unfold s. rewrite !Z.div_div by lia. f_equal. }
  rewrite Hm, Hh.
  pose proof (Z.div_mod c 1000000000 ltac:(lia)).
  pose proof (Z.div_mod s 60 ltac:(lia)).
  pose proof (Z.div_mod (s / 60) 60 ltac:(lia)).
  fold s in H. lia.
Qed.

(** Adding days moves the instant by whole days and keeps the location. *)
Lemma AddDate_days (t : Time) (k : Z) :
  AddDate t 0 0 k = mkTime (inst t + k * nsPerDay) (loc t).
Proof.
  unfold AddDate, dateOf.
  pose proof (dayCount_civil (absDays t)) as Hc.
  destruct (civil (absDays t)) as [[y m] d].
  unfold Date. f_equal.
  rewrite !Z.add_0_r, dayCount_add, Hc.
  pose proof (clock_split t) as Hk. pose proof (abs_split t) as Ha.
  unfold abs in Ha. unfold nsPerDay in *.
  set (h := Hour t) in *. set (mi := Minute t) in *. set (s := Second t) in *.
  set (ns := Nanosecond t) in *. set (c := absClock t) in *.
  set (D := absDays t) in *.
  unfold secondsPerDay, nsPerSecond in *. lia.
Qed.

Lemma inst_AddDate (t : Time) (k : Z) : inst (AddDate t 0 0 k) = inst t + k * nsPerDay.
Proof. rewrite AddDate_days. reflexivity. Qed.

Lemma loc_AddDate (t : Time) (k : Z) : loc (AddDate t 0 0 k) = loc t.
Proof. rewrite AddDate_days. reflexivity. Qed.

Lemma absDays_AddDate (t : Time) (k : Z) : absDays (AddDate t 0 0 k) = absDays t + k.
Proof.
  rewrite AddDate_days. unfold absDays, abs; cbn [inst loc].
  replace (inst t + k * nsPerDay + zoneOffset (loc t) * nsPerSecond)
    with (inst t + zoneOffset (loc t) * nsPerSecond + k * nsPerDay) by lia.
  apply Z.div_add. pose proof nsPerDay_pos; lia.
Qed.

Lemma AddDate_AddDate (t : Time) (a b : Z) :
  AddDate (AddDate t 0 0 a) 0 0 b = AddDate t 0 0 (a + b).
Proof. rewrite !AddDate_days; cbn [inst loc]. f_equal. lia. Qed.

Lemma AddDate_0 (t : Time) : AddDate t 0 0 0 = t.
Proof. rewrite AddDate_days. destruct t; cbn [inst loc]. f_equal. lia. Qed.

(** Two times on the same calendar day of their locations have the same
    weekday and the same date. *)
Lemma Weekday_absDays (t u : Time) : absDays t = absDays u -> Weekday_ t = Weekday_ u.
Proof. unfold Weekday_. intros ->. reflexivity. Qed.

Lemma dateOf_absDays (t u : Time) : absDays t = absDays u -> dateOf t = dateOf u.
Proof. unfold dateOf. intros ->. reflexivity. Qed.

(** The date determines the day: the calendar is injective. *)
Lemma dateOf_inj (t u : Time) : dateOf t = dateOf u -> absDays t = absDays u.
Proof.
  unfold dateOf. intros E.
  pose proof (dayCount_civil (absDays t)) as Ht.
  pose proof (dayCount_civil (absDays u)) as Hu.
  rewrite E in Ht. destruct (civil (absDays u)) as [[y m] d]. congruence.
Qed.

(** Seven days later is the same weekday. *)
Lemma weekdayOfDays_cases (d : Z) :
  let w := (d + 1) mod 7 in
  0 <= w < 7 /\ weekdayOfDays d = Weekday_of_Z w.
Proof. cbv zeta. split; [apply Z.mod_pos_bound; lia | reflexivity]. Qed.

End TimeFacts.

(* ================================================================= *)
(** ** The loop of [findPreviousBusinessDay] *)

Module ScanFacts.
Import time Effects Main Props TimeFacts.

Lemma daysBefore_0 (t : Time) : daysBefore_ t 0 = t.
Proof. unfold daysBefore_. apply AddDate_0. Qed.

Lemma daysBefore_prev (t : Time) (k : Z) :
  daysBefore_ (AddDate t 0 0 (-1)) k = daysBefore_ t (k + 1).
Proof. unfold daysBefore_. rewrite AddDate_AddDate. f_equal. lia. Qed.

Lemma candidates_S (cur : Time) (n : nat) :
  candidates cur (S n) = cur :: candidates (AddDate cur 0 0 (-1)) n.
Proof.
  unfold candidates. cbn [seq map]. rewrite daysBefore_0. f_equal.
  rewrite <- seq_shift, map_map. apply map_ext. intros j.
  rewrite daysBefore_prev. f_equal. lia.
Qed.

Lemma candidates_length (cur : Time) (n : nat) : List.length (candidates cur n) = n.
Proof. unfold candidates. rewrite length_map, length_seq. reflexivity. Qed.

Lemma nth_candidates (cur : Time) (n j : nat) (dflt : Time) :
  (j < n)%nat -> nth j (candidates cur n) dflt = daysBefore_ cur (Z.of_nat j).
Proof.
  intros Hj. unfold candidates.
  rewrite (nth_indep _ dflt (daysBefore_ cur (Z.of_nat 0))) by (rewrite length_map, length_seq; exact Hj).
  rewrite (map_nth (fun j => daysBefore_ cur (Z.of_nat j))), seq_nth by exact Hj. reflexivity.
Qed.

Section WithOracle.

Variable oracle : Oracle.

Lemma checkHoliday_eq (date : Time) :
  checkHoliday oracle date
  = (holidayCheck (reply oracle date), [HttpGet (Year date) (Month date) (Day date)]).
Proof.
  unfold checkHoliday, httpGet, reply, holidayCheck, bind, emit, ret. cbn [app].
  destruct (oracle _ _ _) as [cause | code [cause | h]]; [reflexivity | |];
    destruct (negb _); reflexivity.
Qed.

Lemma isBusinessDay_eq (date : Time) :
  isBusinessDay oracle date
  = (match verdict oracle date with
     | Rejected => (false, None)
     | Accepted => (true, None)
     | Failed e => (false, Some e)
     end, probeEvents date).
Proof.
  unfold isBusinessDay, verdict, probeEvents.
  destruct (isWeekend date); [reflexivity|].
  unfold bind at 1. cbn [emit ret].
  rewrite checkHoliday_eq. unfold bind, ret.
  destruct (holidayCheck _) as [[b name] [e|]]; [reflexivity|]. cbn [app].
  destruct b; reflexivity.
Qed.

(** One iteration of the loop. *)
Lemma scan_S (n : nat) (cur : Time) :
  scan oracle (S n) cur
  = match verdict oracle cur with
    | Rejected =>
        let '(r, tr) := scan oracle n (AddDate cur 0 0 (-1)) in
        (r, probeEvents cur ++ tr)
    | Accepted => ((cur, None), probeEvents cur)
    | Failed e => ((zero, Some (ErrBizDayCheck e)), probeEvents cur)
    end.
Proof.
  cbn [scan]. rewrite isBusinessDay_eq. unfold bind, ret.
  destruct (verdict oracle cur); rewrite ?app_nil_r; reflexivity.
Qed.

(** The candidates rejected at the front of a scan are walked over. *)
Lemma scan_skip (a n : nat) (cur : Time) :
  (forall j, (j < a)%nat -> verdict oracle (daysBefore_ cur (Z.of_nat j)) = Rejected) ->
  scan oracle (a + n) cur
  = let '(r, tr) := scan oracle n (daysBefore_ cur (Z.of_nat a)) in
    (r, flat_map (probeEvents) (candidates cur a) ++ tr).
Proof.
  revert cur. induction a as [|a IH]; intros cur Hrej.
  - cbn [Nat.add]. change (Z.of_nat 0) with 0. rewrite daysBefore_0.
    destruct (scan oracle n cur). reflexivity.
  - cbn [Nat.add]. rewrite scan_S.
    pose proof (Hrej O ltac:(lia)) as H0. change (Z.of_nat 0) with 0 in H0.
    rewrite daysBefore_0 in H0. rewrite H0.
    rewrite IH.
    + rewrite daysBefore_prev. replace (Z.of_nat a + 1) with (Z.of_nat (S a)) by lia.
      destruct (scan oracle n _) as [r tr].
      rewrite candidates_S. cbn [flat_map]. rewrite <- app_assoc. reflexivity.
    + intros j Hj. rewrite daysBefore_prev.
      replace (Z.of_nat j + 1) with (Z.of_nat (S j)) by lia. apply Hrej. lia.
Qed.

(** Every run of the loop ends in one of three ways. *)
Lemma scan_run (n : nat) (cur : Time) : ScanRun oracle cur n (scan oracle n cur).
Proof.
  revert cur. induction n as [|n IH]; intros cur.
  - apply RunExhausted; [intros j Hj; lia | reflexivity].
  - rewrite scan_S. destruct (verdict oracle cur) as [| |e] eqn:V.
    + destruct (IH (AddDate cur 0 0 (-1))) as [Hrej Heq | q Hq Hrej Hacc Heq | q e Hq Hrej Hf Heq];
        rewrite Heq.
      * apply RunExhausted.
        -- intros [|j] Hj; [change (Z.of_nat 0) with 0; rewrite daysBefore_0; exact V|].
           replace (Z.of_nat (S j)) with (Z.of_nat j + 1) by lia.
           rewrite <- daysBefore_prev. apply Hrej. lia.
        -- rewrite candidates_S. reflexivity.
      * apply (RunFound _ _ _ _ (S q)); [lia| | |].
        -- intros [|j] Hj; [change (Z.of_nat 0) with 0; rewrite daysBefore_0; exact V|].
           replace (Z.of_nat (S j)) with (Z.of_nat j + 1) by lia.
           rewrite <- daysBefore_prev. apply Hrej. lia.
        -- replace (Z.of_nat (S q)) with (Z.of_nat q + 1) by lia.
           rewrite <- daysBefore_prev. exact Hacc.
        -- rewrite (candidates_S cur (S q)).
           replace (Z.of_nat (S q)) with (Z.of_nat q + 1) by lia.
           rewrite <- daysBefore_prev. reflexivity.
      * apply (RunFailed _ _ _ _ (S q) e); [lia| | |].
        -- intros [|j] Hj; [change (Z.of_nat 0) with 0; rewrite daysBefore_0; exact V|].
           replace (Z.of_nat (S j)) with (Z.of_nat j + 1) by lia.
           rewrite <- daysBefore_prev. apply Hrej. lia.
        -- replace (Z.of_nat (S q)) with (Z.of_nat q + 1) by lia.
           rewrite <- daysBefore_prev. exact Hf.
        -- rewrite (candidates_S cur (S q)). reflexivity.
    + apply (RunFound _ _ _ _ O); [lia | intros j Hj; lia | |];
        change (Z.of_nat 0) with 0; rewrite daysBefore_0; [exact V|].
      unfold candidates. cbn. rewrite daysBefore_0, app_nil_r. reflexivity.
    + apply (RunFailed _ _ _ _ O e); [lia | intros j Hj; lia | |];
        change (Z.of_nat 0) with 0; rewrite ?daysBefore_0; [exact V|].
      unfold candidates. cbn. rewrite daysBefore_0, app_nil_r. reflexivity.
Qed.

End WithOracle.
End ScanFacts.

(* ================================================================= *)
(** ** Business days and verdicts *)

Module BizFacts.
Import time Effects Main Props TimeFacts ScanFacts.

Lemma isWeekend_absDays (t u : Time) : absDays t = absDays u -> isWeekend t = isWeekend u.
Proof. intros E. unfold isWeekend. rewrite (Weekday_absDays t u E). reflexivity. Qed.

Lemma probed_probeEvents (l : list Time) : probed (flat_map probeEvents l) = l.
Proof.
  induction l as [|c l IH]; [reflexivity|].
  cbn [flat_map]. unfold probed in *. rewrite flat_map_app, IH.
  unfold probeEvents. destruct (isWeekend c); reflexivity.
Qed.

Lemma ymd_dateOf (t : Time) : ymd t = dateOf t.
Proof. unfold ymd, Year, Month, Day. destruct (dateOf t) as [[y m] d]. reflexivity. Qed.

Lemma ymd_parts (t : Time) (y m d : Z) :
  ymd t = (y, m, d) -> Year t = y /\ Month t = m /\ Day t = d.
Proof. unfold ymd. intros E. inversion E. auto. Qed.

Lemma queried_probeEvents (l : list Time) :
  queried (flat_map probeEvents l)
  = map ymd (filter (fun c => negb (isWeekend c)) l).
Proof.
  induction l as [|c l IH]; [reflexivity|].
  cbn [flat_map filter]. unfold queried in *. rewrite flat_map_app, IH.
  unfold probeEvents. destruct (isWeekend c); reflexivity.
Qed.

Section WithOracle.
Variable oracle : Oracle.

Lemma businessDay_absDays (t u : Time) :
  absDays t = absDays u -> businessDay oracle t = businessDay oracle u.
Proof.
  intros E. unfold businessDay, reported.
  rewrite (isWeekend_absDays t u E).
  pose proof (dateOf_absDays t u E) as D. unfold Year, Month, Day. rewrite D. reflexivity.
Qed.

Lemma verdict_Accepted (c : Time) :
  verdict oracle c = Accepted <-> businessDay oracle c = true.
Proof.
  unfold verdict, businessDay, reported, reportedYMD, reply.
  destruct (isWeekend c); cbn [negb andb]; [split; discriminate|].
  destruct (holidayCheck _) as [[b name] [e|]]; [split; discriminate|].
  destruct b; split; congruence.
Qed.

Lemma verdict_Rejected (c : Time) :
  verdict oracle c = Rejected <-> isWeekend c = true \/ reported oracle c = Some true.
Proof.
  unfold verdict, reported, reportedYMD, reply.
  destruct (isWeekend c).
  - split; auto.
  - destruct (holidayCheck _) as [[b name] [e|]].
    + split; [discriminate | intros [H|H]; discriminate].
    + destruct b; split; auto; try discriminate. intros [H|H]; discriminate.
Qed.

Lemma verdict_Failed (c : Time) (e : error) :
  verdict oracle c = Failed e <->
  isWeekend c = false /\ callError oracle c = Some e.
Proof.
  unfold verdict, callError, reply.
  destruct (isWeekend c).
  - split; [discriminate | intros [H _]; discriminate].
  - destruct (holidayCheck _) as [[b name] [e'|]]; cbn [snd].
    + split; [intros H; split; congruence | intros [_ H]; congruence].
    + destruct b; (split; [discriminate | intros [_ H]; discriminate]).
Qed.

Lemma reported_absDays (t u : Time) :
  absDays t = absDays u -> reported oracle t = reported oracle u.
Proof.
  intros E. unfold reported, Year, Month, Day.
  rewrite (dateOf_absDays t u E). reflexivity.
Qed.

Lemma callError_reported (c : Time) :
  reported oracle c = None <-> exists e, callError oracle c = Some e.
Proof.
  unfold reported, reportedYMD, callError, reply.
  destruct (holidayCheck _) as [[b name] [e|]]; cbn [snd].
  - split; eauto.
  - split; [discriminate | intros [e H]; discriminate].
Qed.

Lemma Rejected_not_businessDay (c : Time) :
  verdict oracle c = Rejected -> businessDay oracle c = false.
Proof.
  intros V. destruct (businessDay oracle c) eqn:B; [|reflexivity].
  apply verdict_Accepted in B. congruence.
Qed.

(** The run of [findPreviousBusinessDay]: the loop over 30 candidates
    from the day before [from]. *)
Lemma find_run (from : Time) :
  ScanRun oracle (daysBefore_ from 1) 30 (findPreviousBusinessDay oracle from).
Proof. unfold findPreviousBusinessDay, maxDays. apply scan_run. Qed.

Lemma daysBefore_daysBefore (t : Time) (a b : Z) :
  daysBefore_ (daysBefore_ t a) b = daysBefore_ t (a + b).
Proof. unfold daysBefore_. rewrite AddDate_AddDate. f_equal. lia. Qed.

Lemma absDays_daysBefore (t : Time) (k : Z) : absDays (daysBefore_ t k) = absDays t - k.
Proof. unfold daysBefore_. rewrite absDays_AddDate. lia. Qed.

Lemma inst_daysBefore (t : Time) (k : Z) : inst (daysBefore_ t k) = inst t - k * nsPerDay.
Proof. unfold daysBefore_. rewrite inst_AddDate. lia. Qed.

(** A successful run returns one of the 30 preceding days, accepted
    after all the days between were rejected. *)
Lemma find_success (from d : Time) :
  result (findPreviousBusinessDay oracle from) = (d, None) ->
  exists q, (q < 30)%nat /\ d = daysBefore_ from (1 + Z.of_nat q)
    /\ verdict oracle d = Accepted
    /\ forall j, (j < q)%nat -> verdict oracle (daysBefore_ from (1 + Z.of_nat j)) = Rejected.
Proof.
  intros Hres.
  destruct (find_run from) as [Hrej Heq | q Hq Hrej Hacc Heq | q e Hq Hrej Hf Heq];
    rewrite Heq in Hres; cbn [result fst] in Hres; try discriminate.
  injection Hres as <-.
  exists q. rewrite daysBefore_daysBefore in Hacc.
  split; [exact Hq|]. split; [rewrite daysBefore_daysBefore; reflexivity|].
  split; [rewrite daysBefore_daysBefore; exact Hacc|].
  intros j Hj. rewrite <- daysBefore_daysBefore. apply Hrej, Hj.
Qed.

End WithOracle.
End BizFacts.

(* ================================================================= *)
(** ** The shape of a run of [findPreviousBusinessDay] *)

Module FindFacts.
Import time Effects Main Props TimeFacts ScanFacts BizFacts.

Lemma candidates_preceding (from : Time) (n : nat) :
  candidates (daysBefore_ from 1) n = preceding from n.
Proof.
  unfold candidates, preceding. apply map_ext. intros j.
  apply daysBefore_daysBefore.
Qed.

Lemma preceding_length (from : Time) (n : nat) : List.length (preceding from n) = n.
Proof. unfold preceding. rewrite length_map, length_seq. reflexivity. Qed.

Lemma In_preceding (from : Time) (n : nat) (c : Time) :
  In c (preceding from n) <->
  exists j, (j < n)%nat /\ c = daysBefore_ from (1 + Z.of_nat j).
Proof.
  unfold preceding. rewrite in_map_iff. split.
  - intros (j & <- & Hj). apply in_seq in Hj. exists j. split; [lia | reflexivity].
  - intros (j & Hj & ->). exists j. split; [reflexivity | apply in_seq; lia].
Qed.

Lemma preceding_S (from : Time) (n : nat) :
  preceding from (S n) = preceding from n ++ [daysBefore_ from (1 + Z.of_nat n)].
Proof. unfold preceding. rewrite seq_S, map_app. reflexivity. Qed.

(** Days at different distances from [from] are different days, with
    different dates. *)
Lemma daysBefore_inj_ymd (from : Time) (a b : Z) :
  ymd (daysBefore_ from a) = ymd (daysBefore_ from b) -> a = b.
Proof.
  rewrite !ymd_dateOf. intros E. apply dateOf_inj in E.
  rewrite !absDays_daysBefore in E. lia.
Qed.

Lemma daysBefore_inj (from : Time) (a b : Z) :
  daysBefore_ from a = daysBefore_ from b -> a = b.
Proof. intros E. apply (daysBefore_inj_ymd from). rewrite E. reflexivity. Qed.

Section WithOracle.
Variable oracle : Oracle.

(** A run examines the [p] nearest preceding days, [1 <= p <= 30]; all
    but the last are rejected, and the verdict on the last one decides the
    result. *)
Lemma find_shape (from : Time) :
  exists p : nat,
    (p < 30)%nat
    /\ trace (findPreviousBusinessDay oracle from)
       = flat_map probeEvents (preceding from (S p))
    /\ (forall j, (j < p)%nat ->
          verdict oracle (daysBefore_ from (1 + Z.of_nat j)) = Rejected)
    /\ match verdict oracle (daysBefore_ from (1 + Z.of_nat p)) with
       | Rejected =>
           p = 29%nat
           /\ result (findPreviousBusinessDay oracle from) = (zero, Some ErrNotFound)
       | Accepted =>
           result (findPreviousBusinessDay oracle from)
           = (daysBefore_ from (1 + Z.of_nat p), None)
       | Failed e =>
           result (findPreviousBusinessDay oracle from)
           = (zero, Some (ErrBizDayCheck e))
       end.
Proof.
  destruct (find_run oracle from) as [Hrej Heq | q Hq Hrej Hacc Heq | q e Hq Hrej Hf Heq];
    rewrite Heq; cbn [trace result fst snd]; rewrite candidates_preceding.
  - exists 29%nat. split; [lia|]. split; [reflexivity|]. split.
    + intros j Hj. rewrite <- daysBefore_daysBefore. apply Hrej. lia.
    + rewrite <- daysBefore_daysBefore, (Hrej 29%nat) by lia. split; reflexivity.
  - exists q. split; [exact Hq|]. split; [reflexivity|]. split.
    + intros j Hj. rewrite <- daysBefore_daysBefore. apply Hrej. exact Hj.
    + rewrite <- daysBefore_daysBefore, Hacc. reflexivity.
  - exists q. split; [exact Hq|]. split; [reflexivity|]. split.
    + intros j Hj. rewrite <- daysBefore_daysBefore. apply Hrej. exact Hj.
    + rewrite <- daysBefore_daysBefore, Hf. reflexivity.
Qed.

(** The dates a run queries are those of the candidates that are not
    weekend days. *)
Lemma queried_preceding (from : Time) (n : nat) (y m d : Z) :
  In (y, m, d) (queried (flat_map probeEvents (preceding from n))) <->
  exists j, (j < n)%nat
    /\ isWeekend (daysBefore_ from (1 + Z.of_nat j)) = false
    /\ ymd (daysBefore_ from (1 + Z.of_nat j)) = (y, m, d).
Proof.
  rewrite queried_probeEvents, in_map_iff. split.
  - intros (c & Hc & Hin). apply filter_In in Hin as [Hin Hwk].
    apply In_preceding in Hin as (j & Hj & ->).
    exists j. split; [exact Hj|]. split; [apply negb_true_iff; exact Hwk | exact Hc].
  - intros (j & Hj & Hwk & Hc). exists (daysBefore_ from (1 + Z.of_nat j)).
    split; [exact Hc|]. apply filter_In. split.
    + apply In_preceding. exists j. split; [exact Hj | reflexivity].
    + apply negb_true_iff. exact Hwk.
Qed.

End WithOracle.
End FindFacts.

(* ================================================================= *)
(** ** The properties of the specification *)

Import time Effects Main Props TimeFacts ScanFacts BizFacts.

(** C1: a date returned without an error is strictly before the base date,
    is a business day (not a Saturday or Sunday, and reported by the oracle
    as not a holiday), and no calendar day strictly between it and the base
    date is a business day: each of them is a weekend day or a reported
    holiday. *)
Theorem C1_most_recent_business_day (oracle : Oracle) (from d : Time) :
  result (findPreviousBusinessDay oracle from) = (d, None) ->
  Before d from
  /\ absDays d < absDays from
  /\ isWeekend d = false
  /\ reported oracle d = Some false
  /\ businessDay oracle d = true
  /\ (forall c : Time, absDays d < absDays c < absDays from ->
        businessDay oracle c = false
        /\ (isWeekend c = true \/ reported oracle c = Some true)).
Proof.
  intros Hres. destruct (find_success oracle from d Hres) as (q & Hq & -> & Hacc & Hrej).
  pose proof (proj1 (verdict_Accepted oracle _) Hacc) as Hbiz.
  assert (Hparts := Hbiz). unfold businessDay in Hparts.
  apply andb_true_iff in Hparts as [Hwk Hrep].
  split; [|split; [|split; [|split; [|split; [exact Hbiz|]]]]].
  - unfold Before. rewrite inst_daysBefore. pose proof nsPerDay_pos. nia.
  - rewrite absDays_daysBefore. lia.
  - apply negb_true_iff. exact Hwk.
  - destruct (reported oracle _) as [[|]|]; try discriminate; reflexivity.
  - intros c H. rewrite absDays_daysBefore in H.
    destruct (Z_of_nat_complete (absDays from - absDays c - 1) ltac:(lia)) as [j Hj].
    assert (E : absDays c = absDays (daysBefore_ from (1 + Z.of_nat j)))
      by (rewrite absDays_daysBefore; lia).
    assert (V : verdict oracle (daysBefore_ from (1 + Z.of_nat j)) = Rejected)
      by (apply Hrej; lia).
    split.
    + rewrite (businessDay_absDays oracle _ _ E). apply Rejected_not_businessDay, V.
    + apply verdict_Rejected in V.
      rewrite (isWeekend_absDays _ _ E), (reported_absDays oracle _ _ E). exact V.
Qed.

Lemma C1_witness :
  result (findPreviousBusinessDay Samples.july2025 (Samples.day 2025 7 22))
    = (Samples.day 2025 7 18, None)
  /\ Before (Samples.day 2025 7 18) (Samples.day 2025 7 22)
  /\ businessDay Samples.july2025 (Samples.day 2025 7 18) = true
  /\ businessDay Samples.july2025 (Samples.day 2025 7 21) = false.
Proof.
  assert (R : result (findPreviousBusinessDay Samples.july2025 (Samples.day 2025 7 22))
              = (Samples.day 2025 7 18, None)) by (vm_compute; reflexivity).
  destruct (C1_most_recent_business_day Samples.july2025 _ _ R)
    as (Hb & _ & _ & _ & Hbiz & Hbetween).
  split; [exact R|]. split; [exact Hb|]. split; [exact Hbiz|].
  apply (Hbetween (Samples.day 2025 7 21)). vm_compute. split; reflexivity.
Defined.

(** C10: a date returned without an error is the base date moved back by
    [k] days, for some [k] from 1 to 30. *)
Theorem C10_result_within_30_days (oracle : Oracle) (from d : Time) :
  result (findPreviousBusinessDay oracle from) = (d, None) ->
  exists k : Z, 1 <= k <= 30 /\ d = AddDate from 0 0 (- k).
Proof.
  intros Hres. destruct (find_success oracle from d Hres) as (q & Hq & -> & _).
  exists (1 + Z.of_nat q). split; [lia | reflexivity].
Qed.

Lemma C10_witness :
  exists k : Z, 1 <= k <= 30
    /\ Samples.day 2025 7 18 = AddDate (Samples.day 2025 7 22) 0 0 (- k).
Proof.
  apply (C10_result_within_30_days Samples.july2025 (Samples.day 2025 7 22)).
  vm_compute. reflexivity.
Defined.

(** C8: whenever [findPreviousBusinessDay] returns an error, the date
    beside it is the zero [Time]. *)
Theorem C8_zero_time_on_error (oracle : Oracle) (from : Time) :
  snd (result (findPreviousBusinessDay oracle from)) <> None ->
  fst (result (findPreviousBusinessDay oracle from)) = zero.
Proof.
  unfold findPreviousBusinessDay. generalize (AddDate from 0 0 (-1)) as cur.
  induction maxDays as [|n IH]; intros cur Herr.
  - reflexivity.
  - rewrite scan_S in *. destruct (verdict oracle cur) as [| |e].
    + specialize (IH (AddDate cur 0 0 (-1))).
      destruct (scan oracle n (AddDate cur 0 0 (-1))) as [r tr].
      apply IH. exact Herr.
    + elim Herr. reflexivity.
    + reflexivity.
Qed.

Lemma C8_witness :
  fst (result (findPreviousBusinessDay Samples.outage (Samples.day 2025 7 22))) = zero
  /\ fst (result (findPreviousBusinessDay Samples.allHolidays (Samples.day 2025 7 22))) = zero.
Proof.
  split; apply C8_zero_time_on_error; vm_compute; discriminate.
Defined.

(** C2: the scan contract.  A run examines the [p] calendar days
    immediately preceding the base date, nearest first, one day at a time
    ([1 <= p <= 30]); its events are, for each candidate in turn, the probe
    and, unless the candidate is a weekend day, one oracle query for its
    date; so a weekend candidate is never queried and a non-weekend
    candidate always is.  Every candidate before the last is a weekend day
    or a reported holiday, and a candidate that is neither is the last one
    examined and is returned.  A candidate that is a weekend day or a
    reported holiday is rejected: it is not the result, and the day before
    it is examined next, unless it was the 30th candidate, where the run
    ends with the not-found error.  The run stops before the 30th
    candidate only by returning a candidate or on a failing oracle call,
    which ends it with that call's error. *)
Theorem C2_scan_contract (oracle : Oracle) (from : Time) :
  exists p : nat,
    (1 <= p <= 30)%nat
    /\ probed (trace (findPreviousBusinessDay oracle from))
       = map (fun j => AddDate from 0 0 (- (1 + Z.of_nat j))) (seq 0 p)
    /\ trace (findPreviousBusinessDay oracle from)
       = flat_map
           (fun c => Probe c ::
                     (if isWeekend c then []
                      else [HttpGet (Year c) (Month c) (Day c)]))
           (probed (trace (findPreviousBusinessDay oracle from)))
    /\ (forall c, In c (probed (trace (findPreviousBusinessDay oracle from))) ->
          isWeekend c = true ->
          ~ In (Year c, Month c, Day c)
               (queried (trace (findPreviousBusinessDay oracle from))))
    /\ (forall c, In c (probed (trace (findPreviousBusinessDay oracle from))) ->
          isWeekend c = false ->
          In (Year c, Month c, Day c)
             (queried (trace (findPreviousBusinessDay oracle from))))
    /\ (forall j, (j + 1 < p)%nat ->
          isWeekend (AddDate from 0 0 (- (1 + Z.of_nat j))) = true
          \/ reported oracle (AddDate from 0 0 (- (1 + Z.of_nat j))) = Some true)
    /\ (forall j, (j < p)%nat ->
          isWeekend (AddDate from 0 0 (- (1 + Z.of_nat j))) = false ->
          reported oracle (AddDate from 0 0 (- (1 + Z.of_nat j))) = Some false ->
          S j = p
          /\ result (findPreviousBusinessDay oracle from)
             = (AddDate from 0 0 (- (1 + Z.of_nat j)), None))
    /\ (forall j, (j < p)%nat ->
          isWeekend (AddDate from 0 0 (- (1 + Z.of_nat j))) = true
          \/ reported oracle (AddDate from 0 0 (- (1 + Z.of_nat j))) = Some true ->
          result (findPreviousBusinessDay oracle from)
          <> (AddDate from 0 0 (- (1 + Z.of_nat j)), None)
          /\ ((S j < 30)%nat ->
              (S j < p)%nat
              /\ nth (S j) (probed (trace (findPreviousBusinessDay oracle from))) zero
                 = AddDate (AddDate from 0 0 (- (1 + Z.of_nat j))) 0 0 (-1))
          /\ (S j = 30%nat ->
              result (findPreviousBusinessDay oracle from) = (zero, Some ErrNotFound)))
    /\ (forall j, (j < p)%nat ->
          isWeekend (AddDate from 0 0 (- (1 + Z.of_nat j))) = false ->
          reported oracle (AddDate from 0 0 (- (1 + Z.of_nat j))) = None ->
          S j = p
          /\ exists e,
               callError oracle (AddDate from 0 0 (- (1 + Z.of_nat j))) = Some e
               /\ result (findPreviousBusinessDay oracle from)
                  = (zero, Some (ErrBizDayCheck e)))
    /\ (forall d, result (findPreviousBusinessDay oracle from) = (d, None) ->
          isWeekend d = false
          /\ reported oracle d = Some false
          /\ d = AddDate from 0 0 (- Z.of_nat p)).
Proof.
  destruct (FindFacts.find_shape oracle from) as (p & Hp & Htr & Hrej & Hlast).
  exists (S p). rewrite Htr, probed_probeEvents.
  split; [lia|]. split; [reflexivity|]. split; [reflexivity|].
  split; [|split; [|split; [|split; [|split; [|split]]]]].
  - intros c Hc Hwk Hq.
    apply FindFacts.queried_preceding in Hq as (j & Hj & Hwk' & Hymd).
    apply FindFacts.In_preceding in Hc as (i & Hi & ->).
    apply FindFacts.daysBefore_inj_ymd in Hymd.
    assert (j = i) by lia. subst j. congruence.
  - intros c Hc Hwk.
    apply FindFacts.In_preceding in Hc as (i & Hi & ->).
    apply FindFacts.queried_preceding. exists i.
    split; [exact Hi|]. split; [exact Hwk | reflexivity].
  - intros j Hj. apply verdict_Rejected. apply Hrej. lia.
  - intros j Hj Hwk Hrep.
    assert (Hacc : verdict oracle (daysBefore_ from (1 + Z.of_nat j)) = Accepted).
    { apply verdict_Accepted. unfold businessDay, daysBefore_. rewrite Hwk, Hrep. reflexivity. }
    destruct (Nat.eq_dec j p) as [->|Hne].
    + rewrite Hacc in Hlast. split; [reflexivity | exact Hlast].
    + rewrite Hrej in Hacc by lia. discriminate.
  - intros j Hj Hrejected.
    fold (daysBefore_ from (1 + Z.of_nat j)) in *.
    assert (V : verdict oracle (daysBefore_ from (1 + Z.of_nat j)) = Rejected)
      by (apply verdict_Rejected; exact Hrejected).
    split; [|split].
    + intros Hres. apply find_success in Hres as (q & _ & _ & Hacc & _).
      congruence.
    + intros Hnext.
      assert (Hjp : (j < p)%nat).
      { destruct (Nat.eq_dec j p) as [->|Hne]; [|lia].
        rewrite V in Hlast. destruct Hlast as [-> _]. lia. }
      split; [lia|].
      unfold preceding.
      rewrite (nth_indep _ zero (daysBefore_ from (1 + Z.of_nat 0)))
        by (rewrite length_map, length_seq; lia).
      rewrite (map_nth (fun i => daysBefore_ from (1 + Z.of_nat i))), seq_nth by lia.
      unfold daysBefore_. rewrite AddDate_AddDate. f_equal. lia.
    + intros H30. assert (j = p) by lia. subst j.
      rewrite V in Hlast. apply Hlast.
  - intros j Hj Hwk Hrep.
    fold (daysBefore_ from (1 + Z.of_nat j)) in *.
    apply callError_reported in Hrep as [e He].
    assert (V : verdict oracle (daysBefore_ from (1 + Z.of_nat j)) = Failed e)
      by (apply verdict_Failed; split; assumption).
    destruct (Nat.eq_dec j p) as [->|Hne].
    + rewrite V in Hlast. split; [reflexivity|]. exists e. split; [exact He | exact Hlast].
    + rewrite Hrej in V by lia. discriminate.
  - intros d Hres.
    assert (Ed : daysBefore_ from (1 + Z.of_nat p) = AddDate from 0 0 (- Z.of_nat (S p))).
    { unfold daysBefore_. rewrite Nat2Z.inj_succ. f_equal. lia. }
    destruct (verdict oracle (daysBefore_ from (1 + Z.of_nat p))) as [| |e] eqn:V.
    + destruct Hlast as [_ Hlast]. rewrite Hlast in Hres. discriminate Hres.
    + rewrite Hlast in Hres. injection Hres as <-.
      apply verdict_Accepted in V. unfold businessDay in V.
      apply andb_true_iff in V as [Hwk Hrep].
      split; [apply negb_true_iff; exact Hwk|]. split.
      * destruct (reported oracle _) as [[|]|]; try discriminate Hrep; reflexivity.
      * exact Ed.
    + rewrite Hlast in Hres. discriminate Hres.
Qed.

(** C3: a run examines at most 30 candidates, each one of the 1st to 30th
    days before the base date; the 31st day before it is neither examined
    nor queried.  When every oracle call of the run succeeds, the run ends
    with the not-found error exactly when none of the 30 preceding days is
    a business day. *)
Theorem C3_bounded_scan (oracle : Oracle) (from : Time) :
  (List.length (probed (trace (findPreviousBusinessDay oracle from))) <= 30)%nat
  /\ (forall c, In c (probed (trace (findPreviousBusinessDay oracle from))) ->
        exists k, 1 <= k <= 30 /\ c = AddDate from 0 0 (- k))
  /\ ~ In (AddDate from 0 0 (- 31))
          (probed (trace (findPreviousBusinessDay oracle from)))
  /\ ~ In (ymd (AddDate from 0 0 (- 31)))
          (queried (trace (findPreviousBusinessDay oracle from)))
  /\ (callsSucceed oracle (trace (findPreviousBusinessDay oracle from)) ->
      (snd (result (findPreviousBusinessDay oracle from)) = Some ErrNotFound
       <-> forall k, 1 <= k <= 30 ->
             businessDay oracle (AddDate from 0 0 (- k)) = false)).
Proof.
  destruct (FindFacts.find_shape oracle from) as (p & Hp & Htr & Hrej & Hlast).
  rewrite Htr, probed_probeEvents, FindFacts.preceding_length.
  change (AddDate from 0 0 (- 31)) with (daysBefore_ from 31).
  split; [lia|]. split; [|split; [|split]].
  - intros c Hc. apply FindFacts.In_preceding in Hc as (j & Hj & ->).
    exists (1 + Z.of_nat j). split; [lia | reflexivity].
  - intros Hc. apply FindFacts.In_preceding in Hc as (j & Hj & E).
    apply (FindFacts.daysBefore_inj from 31 (1 + Z.of_nat j)) in E. lia.
  - intros Hq. destruct (ymd (daysBefore_ from 31)) as [[y m] d] eqn:E.
    apply FindFacts.queried_preceding in Hq as (j & Hj & _ & Hymd).
    rewrite <- E in Hymd.
    apply (FindFacts.daysBefore_inj_ymd from (1 + Z.of_nat j) 31) in Hymd. lia.
  - intros Hok. split.
    + intros Herr k Hk.
      destruct (verdict oracle (daysBefore_ from (1 + Z.of_nat p))) as [| |e] eqn:V.
      * destruct Hlast as [-> _].
        destruct (Z_of_nat_complete (k - 1) ltac:(lia)) as [j Hj].
        replace k with (1 + Z.of_nat j) by lia.
        fold (daysBefore_ from (1 + Z.of_nat j)).
        apply Rejected_not_businessDay.
        destruct (Nat.eq_dec j 29) as [->|Hne]; [exact V | apply Hrej; lia].
      * rewrite Hlast in Herr. discriminate.
      * rewrite Hlast in Herr. discriminate.
    + intros Hnone.
      destruct (verdict oracle (daysBefore_ from (1 + Z.of_nat p))) as [| |e] eqn:V.
      * destruct Hlast as [_ ->]. reflexivity.
      * apply verdict_Accepted in V.
        pose proof (Hnone (1 + Z.of_nat p) ltac:(lia)) as Hk.
        fold (daysBefore_ from (1 + Z.of_nat p)) in Hk. congruence.
      * apply verdict_Failed in V as [Hwk Herr].
        assert (Hrep : reported oracle (daysBefore_ from (1 + Z.of_nat p)) = None)
          by (apply callError_reported; eauto).
        exfalso. apply (Hok (Year (daysBefore_ from (1 + Z.of_nat p)))
                            (Month (daysBefore_ from (1 + Z.of_nat p)))
                            (Day (daysBefore_ from (1 + Z.of_nat p)))); [|exact Hrep].
        apply FindFacts.queried_preceding. exists p.
        split; [lia|]. split; [exact Hwk | reflexivity].
Qed.

Lemma C3_witness :
  callsSucceed Samples.allHolidays
    (trace (findPreviousBusinessDay Samples.allHolidays (Samples.day 2025 7 22)))
  /\ (snd (result (findPreviousBusinessDay Samples.allHolidays (Samples.day 2025 7 22)))
        = Some ErrNotFound
      <-> forall k, 1 <= k <= 30 ->
            businessDay Samples.allHolidays (AddDate (Samples.day 2025 7 22) 0 0 (- k))
            = false).
Proof.
  assert (Hok : callsSucceed Samples.allHolidays
    (trace (findPreviousBusinessDay Samples.allHolidays (Samples.day 2025 7 22)))).
  { intros y m d _. vm_compute. discriminate. }
  split; [exact Hok|].
  apply (proj2 (proj2 (proj2 (proj2
           (C3_bounded_scan Samples.allHolidays (Samples.day 2025 7 22)))))).
  exact Hok.
Defined.

(** C4: when an oracle call of a run fails, the run returns an error
    wrapping that call's error, the failing query is the last event of the
    run (no day is probed or queried after it), and every query before it
    succeeded. *)
Theorem C4_oracle_failure_stops (oracle : Oracle) (from : Time) (y m d : Z) :
  In (y, m, d) (queried (trace (findPreviousBusinessDay oracle from))) ->
  reportedYMD oracle y m d = None ->
  exists (e : error) (c : Time) (before : list Event),
    snd (holidayCheck (oracle y m d)) = Some e
    /\ result (findPreviousBusinessDay oracle from) = (zero, Some (ErrBizDayCheck e))
    /\ ymd c = (y, m, d)
    /\ trace (findPreviousBusinessDay oracle from)
       = before ++ [Probe c; HttpGet y m d]
    /\ callsSucceed oracle before.
Proof.
  intros Hq Hfail.
  destruct (FindFacts.find_shape oracle from) as (p & Hp & Htr & Hrej & Hlast).
  rewrite Htr in Hq |- *.
  apply FindFacts.queried_preceding in Hq as (j & Hj & Hwk & Hymd).
  assert (Hrep : reported oracle (daysBefore_ from (1 + Z.of_nat j)) = None).
  { destruct (ymd_parts _ _ _ _ Hymd) as (Ey & Em & Ed).
    unfold reported. rewrite Ey, Em, Ed. exact Hfail. }
  apply callError_reported in Hrep as [e He].
  assert (V : verdict oracle (daysBefore_ from (1 + Z.of_nat j)) = Failed e)
    by (apply verdict_Failed; split; assumption).
  assert (j = p).
  { destruct (Nat.eq_dec j p) as [E|Hne]; [exact E|].
    rewrite Hrej in V by lia. discriminate. }
  subst j. rewrite V in Hlast.
  exists e, (daysBefore_ from (1 + Z.of_nat p)),
         (flat_map probeEvents (preceding from p)).
  split; [|split; [exact Hlast|split; [exact Hymd|split]]].
  - destruct (ymd_parts _ _ _ _ Hymd) as (Ey & Em & Ed).
    unfold callError, reply in He. rewrite Ey, Em, Ed in He. exact He.
  - rewrite FindFacts.preceding_S, flat_map_app. cbn [flat_map].
    rewrite app_nil_r. unfold probeEvents at 2. rewrite Hwk.
    destruct (ymd_parts _ _ _ _ Hymd) as (Ey & Em & Ed).
    rewrite Ey, Em, Ed. reflexivity.
  - intros y' m' d' Hin.
    apply FindFacts.queried_preceding in Hin as (i & Hi & Hwk' & Hymd').
    specialize (Hrej i Hi). apply verdict_Rejected in Hrej as [Hw|Hr]; [congruence|].
    destruct (ymd_parts _ _ _ _ Hymd') as (Ey & Em & Ed).
    unfold reported in Hr. rewrite Ey, Em, Ed in Hr. rewrite Hr. discriminate.
Qed.

Lemma C4_witness :
  exists (e : error) (c : Time) (before : list Event),
    snd (Props.holidayCheck (Samples.outage 2025 7 18)) = Some e
    /\ result (findPreviousBusinessDay Samples.outage (Samples.day 2025 7 22))
       = (zero, Some (ErrBizDayCheck e))
    /\ ymd c = (2025, 7, 18)
    /\ trace (findPreviousBusinessDay Samples.outage (Samples.day 2025 7 22))
       = before ++ [Probe c; HttpGet 2025 7 18]
    /\ callsSucceed Samples.outage before.
Proof.
  apply (C4_oracle_failure_stops Samples.outage (Samples.day 2025 7 22) 2025 7 18).
  - vm_compute. right. left. reflexivity.
  - vm_compute. reflexivity.
Defined.

(** The weekday of a day is Monday exactly when its day count is 0 modulo 7. *)
Lemma weekdayOfDays_Monday (d : Z) : weekdayOfDays d = Monday -> d mod 7 = 0.
Proof.
  unfold weekdayOfDays. intros H.
  pose proof (Z.mod_pos_bound (d + 1) 7 ltac:(lia)) as Hb.
  assert (Hw : (d + 1) mod 7 = 1).
  { assert (Hc : (d + 1) mod 7 = 0 \/ (d + 1) mod 7 = 1 \/ (d + 1) mod 7 = 2
                 \/ (d + 1) mod 7 = 3 \/ (d + 1) mod 7 = 4 \/ (d + 1) mod 7 = 5
                 \/ (d + 1) mod 7 = 6) by lia.
    destruct Hc as [E|[E|[E|[E|[E|[E|E]]]]]]; rewrite E in H;
      try discriminate H; exact E. }
  revert Hw. clear. intros Hw.
  pose proof (Z.div_mod (d + 1) 7 ltac:(lia)).
  pose proof (Z.div_mod d 7 ltac:(lia)).
  pose proof (Z.mod_pos_bound d 7 ltac:(lia)). lia.
Qed.

Lemma Weekday_AddDate (t : Time) (k : Z) :
  Weekday_ (AddDate t 0 0 k) = weekdayOfDays (absDays t + k).
Proof. unfold Weekday_. rewrite absDays_AddDate. reflexivity. Qed.

Lemma weekdayOfDays_mod (d r : Z) :
  d mod 7 = 0 -> 0 <= r < 7 -> weekdayOfDays (d - 7 + r) = Weekday_of_Z ((r + 1) mod 7).
Proof.
  intros Hd Hr. unfold weekdayOfDays. f_equal.
  pose proof (Z.div_mod d 7 ltac:(lia)) as E. rewrite Hd in E.
  replace (d - 7 + r + 1) with (r + 1 + (d / 7 - 1) * 7) by lia.
  apply Z_mod_plus_full.
Qed.

(** C5: with an oracle that reports no day as a holiday, the search from
    a Monday returns the Friday three days earlier: the Sunday and the
    Saturday between are rejected without a query, the Friday is queried
    and returned. *)
Theorem C5_monday_gives_friday (oracle : Oracle) (from : Time) :
  (forall y m d, reportedYMD oracle y m d = Some false) ->
  Weekday_ from = Monday ->
  Weekday_ (AddDate from 0 0 (-1)) = Sunday
  /\ Weekday_ (AddDate from 0 0 (-2)) = Saturday
  /\ Weekday_ (AddDate from 0 0 (-3)) = Friday
  /\ findPreviousBusinessDay oracle from
     = ((AddDate from 0 0 (-3), None),
        [Probe (AddDate from 0 0 (-1));
         Probe (AddDate from 0 0 (-2));
         Probe (AddDate from 0 0 (-3));
         HttpGet (Year (AddDate from 0 0 (-3))) (Month (AddDate from 0 0 (-3)))
                 (Day (AddDate from 0 0 (-3)))]).
Proof.
  intros Hno Hmon. apply weekdayOfDays_Monday in Hmon.
  assert (W1 : Weekday_ (AddDate from 0 0 (-1)) = Sunday).
  { rewrite Weekday_AddDate.
    replace (absDays from + -1) with (absDays from - 7 + 6) by lia.
    rewrite weekdayOfDays_mod by (assumption || lia). reflexivity. }
  assert (W2 : Weekday_ (AddDate from 0 0 (-2)) = Saturday).
  { rewrite Weekday_AddDate.
    replace (absDays from + -2) with (absDays from - 7 + 5) by lia.
    rewrite weekdayOfDays_mod by (assumption || lia). reflexivity. }
  assert (W3 : Weekday_ (AddDate from 0 0 (-3)) = Friday).
  { rewrite Weekday_AddDate.
    replace (absDays from + -3) with (absDays from - 7 + 4) by lia.
    rewrite weekdayOfDays_mod by (assumption || lia). reflexivity. }
  split; [exact W1|]. split; [exact W2|]. split; [exact W3|].
  assert (K1 : isWeekend (AddDate from 0 0 (-1)) = true)
    by (unfold isWeekend; rewrite W1; reflexivity).
  assert (K2 : isWeekend (AddDate from 0 0 (-2)) = true)
    by (unfold isWeekend; rewrite W2; reflexivity).
  assert (K3 : isWeekend (AddDate from 0 0 (-3)) = false)
    by (unfold isWeekend; rewrite W3; reflexivity).
  assert (V1 : verdict oracle (AddDate from 0 0 (-1)) = Rejected)
    by (apply verdict_Rejected; left; exact K1).
  assert (V2 : verdict oracle (AddDate from 0 0 (-2)) = Rejected)
    by (apply verdict_Rejected; left; exact K2).
  assert (V3 : verdict oracle (AddDate from 0 0 (-3)) = Accepted).
  { apply verdict_Accepted. unfold businessDay, reported. rewrite K3, Hno. reflexivity. }
  unfold findPreviousBusinessDay, maxDays.
  rewrite scan_S, V1, AddDate_AddDate. change (-1 + -1) with (-2).
  rewrite scan_S, V2, AddDate_AddDate. change (-2 + -1) with (-3).
  rewrite scan_S, V3.
  unfold probeEvents. rewrite K1, K2, K3. reflexivity.
Qed.

Lemma C5_witness :
  findPreviousBusinessDay Samples.noHolidays (Samples.day 2025 7 28)
  = ((Samples.day 2025 7 25, None),
     [Probe (Samples.day 2025 7 27); Probe (Samples.day 2025 7 26);
      Probe (Samples.day 2025 7 25); HttpGet 2025 7 25]).
Proof.
  assert (Hno : forall y m d, reportedYMD Samples.noHolidays y m d = Some false)
    by (intros; reflexivity).
  assert (Hmon : Weekday_ (Samples.day 2025 7 28) = Monday) by (vm_compute; reflexivity).
  pose proof (proj2 (proj2 (proj2
    (C5_monday_gives_friday Samples.noHolidays (Samples.day 2025 7 28) Hno Hmon)))) as H.
  rewrite H. vm_compute. reflexivity.
Defined.

(** C6: a weekday among the 30 days before the base date that the oracle
    reports as a holiday is never the result; an iteration of the loop on
    it goes on with the day before it; and when the search reaches it, the
    search goes on from the day before it with the attempts that are
    left. *)
Theorem C6_reported_holiday_is_skipped (oracle : Oracle) (from : Time) (k : Z) :
  1 <= k <= 30 ->
  isWeekend (AddDate from 0 0 (- k)) = false ->
  reported oracle (AddDate from 0 0 (- k)) = Some true ->
  result (findPreviousBusinessDay oracle from) <> (AddDate from 0 0 (- k), None)
  /\ (forall n,
        scan oracle (S n) (AddDate from 0 0 (- k))
        = let '(r, tr) := scan oracle n (AddDate (AddDate from 0 0 (- k)) 0 0 (-1)) in
          (r, [Probe (AddDate from 0 0 (- k));
               HttpGet (Year (AddDate from 0 0 (- k))) (Month (AddDate from 0 0 (- k)))
                       (Day (AddDate from 0 0 (- k)))] ++ tr))
  /\ (In (AddDate from 0 0 (- k)) (probed (trace (findPreviousBusinessDay oracle from))) ->
      exists before,
        findPreviousBusinessDay oracle from
        = let '(r, tr) := scan oracle (Z.to_nat (30 - k))
                               (AddDate (AddDate from 0 0 (- k)) 0 0 (-1)) in
          (r, before
              ++ [Probe (AddDate from 0 0 (- k));
                  HttpGet (Year (AddDate from 0 0 (- k))) (Month (AddDate from 0 0 (- k)))
                          (Day (AddDate from 0 0 (- k)))]
              ++ tr)).
Proof.
  fold (daysBefore_ from k). set (c := daysBefore_ from k).
  intros Hk Hwk Hrep.
  assert (V : verdict oracle c = Rejected) by (apply verdict_Rejected; right; exact Hrep).
  assert (Hstep : forall n,
            scan oracle (S n) c
            = let '(r, tr) := scan oracle n (AddDate c 0 0 (-1)) in
              (r, [Probe c; HttpGet (Year c) (Month c) (Day c)] ++ tr)).
  { intros n. rewrite scan_S, V. unfold probeEvents. rewrite Hwk. reflexivity. }
  split; [|split; [exact Hstep|]].
  - intros Hres. apply find_success in Hres as (q & _ & _ & Hacc & _). congruence.
  - intros Hin.
    destruct (FindFacts.find_shape oracle from) as (p & Hp & Htr & Hrej & _).
    rewrite Htr, probed_probeEvents in Hin.
    apply FindFacts.In_preceding in Hin as (j & Hj & E).
    apply FindFacts.daysBefore_inj in E.
    exists (flat_map probeEvents (candidates (daysBefore_ from 1) j)).
    unfold findPreviousBusinessDay, maxDays.
    replace 30%nat with (j + S (Z.to_nat (30 - k)))%nat by lia.
    change (AddDate from 0 0 (-1)) with (daysBefore_ from 1). rewrite scan_skip.
    + rewrite daysBefore_daysBefore. replace (1 + Z.of_nat j) with k by lia.
      fold c. rewrite Hstep.
      destruct (scan oracle (Z.to_nat (30 - k)) (AddDate c 0 0 (-1))) as [r tr].
      reflexivity.
    + intros i Hi. rewrite daysBefore_daysBefore. apply Hrej. lia.
Qed.

Lemma C6_witness :
  result (findPreviousBusinessDay Samples.july2025 (Samples.day 2025 7 22))
  <> (Samples.day 2025 7 21, None).
Proof.
  apply (C6_reported_holiday_is_skipped Samples.july2025 (Samples.day 2025 7 22) 1).
  - lia.
  - vm_compute. reflexivity.
  - vm_compute. reflexivity.
Defined.

(** What [checkHoliday] reports besides the name is the same for two
    answers that differ only in the name. *)
Lemma holidayCheck_sameUpToName (r1 r2 : HttpResult) :
  sameUpToName r1 r2 ->
  fst (fst (holidayCheck r1)) = fst (fst (holidayCheck r2))
  /\ snd (holidayCheck r1) = snd (holidayCheck r2).
Proof.
  destruct r1 as [c1 | s1 [c1 | h1]], r2 as [c2 | s2 [c2 | h2]]; cbn [sameUpToName];
    try contradiction.
  - intros ->. split; reflexivity.
  - intros [-> ->]. split; reflexivity.
  - intros [-> Hh]. unfold holidayCheck. destruct (negb _); cbn [fst snd]; auto.
Qed.

Lemma scan_sameUpToName (o1 o2 : Oracle) (n : nat) (cur : Time) :
  (forall y m d, In (y, m, d) (queried (trace (scan o1 n cur))) ->
                 sameUpToName (o1 y m d) (o2 y m d)) ->
  scan o1 n cur = scan o2 n cur.
Proof.
  revert cur. induction n as [|n IH]; intros cur Hsame; [reflexivity|].
  assert (Hv : verdict o1 cur = verdict o2 cur).
  { unfold verdict. destruct (isWeekend cur) eqn:Hwk; [reflexivity|].
    assert (Hq : In (Year cur, Month cur, Day cur) (queried (trace (scan o1 (S n) cur)))).
    { rewrite scan_S. unfold probeEvents. rewrite Hwk.
      destruct (verdict o1 cur);
        [destruct (scan o1 n (AddDate cur 0 0 (-1))) as [r tr]| |];
        cbn; left; reflexivity. }
    apply Hsame, holidayCheck_sameUpToName in Hq as [Hb He]. unfold reply.
    destruct (holidayCheck (o1 _ _ _)) as [[b1 n1] e1],
             (holidayCheck (o2 _ _ _)) as [[b2 n2] e2].
    cbn [fst snd] in Hb, He. subst. reflexivity. }
  rewrite (scan_S o2), <- Hv.
  rewrite scan_S in Hsame |- *.
  destruct (verdict o1 cur); [|reflexivity|reflexivity].
  rewrite <- IH; [reflexivity|].
  intros y m d Hin. apply Hsame.
  destruct (scan o1 n (AddDate cur 0 0 (-1))) as [r tr].
  cbn [trace snd] in Hin |- *. unfold queried in *.
  rewrite flat_map_app. apply in_or_app. right. exact Hin.
Qed.

(** C9: two oracles whose answers, for every date the run queries, differ
    at most in the holiday name give the same run: the same date or the
    same error, and the same events. *)
Theorem C9_name_independent (o1 o2 : Oracle) (from : Time) :
  (forall y m d,
      In (y, m, d) (queried (trace (findPreviousBusinessDay o1 from))) ->
      sameUpToName (o1 y m d) (o2 y m d)) ->
  findPreviousBusinessDay o1 from = findPreviousBusinessDay o2 from.
Proof. unfold findPreviousBusinessDay. apply scan_sameUpToName. Qed.

Lemma C9_witness :
  findPreviousBusinessDay Samples.july2025 (Samples.day 2025 7 22)
  = findPreviousBusinessDay Samples.july2025' (Samples.day 2025 7 22).
Proof.
  apply C9_name_independent. intros y m d _.
  unfold Samples.july2025, Samples.july2025'.
  destruct ((y =? 2025) && (m =? 7) && (d =? 21)); cbn; split; reflexivity.
Defined.

(** An empty [-date] is not a date for [time.Parse], and [main] does not
    reject it: it searches from today's date in Tokyo. *)
Lemma C7_counterexample :
  ~ (forall (oracle : Oracle) (env : Env) (flags : Flags),
       snd (Parse_2006_01_02 (dateStr flags)) <> None ->
       reportsInvalidDate oracle env flags).
Proof.
  intros H.
  assert (Hbad : snd (Parse_2006_01_02 (dateStr (Samples.dateFlag EmptyString))) <> None)
    by (vm_compute; discriminate).
  destruct (H Samples.july2025 Samples.tokyoEnv (Samples.dateFlag EmptyString) Hbad)
    as [Hexit _].
  vm_compute in Hexit. discriminate Hexit.
Qed.

(** C7, amended: when [-help] is not given and the [-date] argument is not
    empty and does not parse as a [YYYY-MM-DD] date, [main] writes the
    invalid-date message to standard error and exits with status 1; it
    does nothing else, so it neither queries the oracle nor examines a
    candidate. *)
Theorem C7_invalid_date_rejected (oracle : Oracle) (env : Env) (flags : Flags) :
  help flags = false ->
  dateStr flags <> EmptyString ->
  snd (Parse_2006_01_02 (dateStr flags)) <> None ->
  main oracle env flags
  = (ExitStatus 1, [Stderr (InvalidDateFormat (dateStr flags))])
  /\ reportsInvalidDate oracle env flags.
Proof.
  intros Hhelp Hne Hbad.
  assert (E : main oracle env flags
              = (ExitStatus 1, [Stderr (InvalidDateFormat (dateStr flags))])).
  { unfold main. rewrite Hhelp.
    apply String.eqb_neq in Hne. rewrite Hne.
    destruct (Parse_2006_01_02 (dateStr flags)) as [baseDate [e|]].
    - reflexivity.
    - elim Hbad. reflexivity. }
  split; [exact E|]. unfold reportsInvalidDate. rewrite E.
  split; [reflexivity|]. split; [left; reflexivity|]. split; reflexivity.
Qed.

Lemma C7_witness :
  main Samples.july2025 Samples.tokyoEnv (Samples.dateFlag "2025-02-30")
  = (ExitStatus 1, [Stderr (InvalidDateFormat "2025-02-30")]).
Proof.
  apply (C7_invalid_date_rejected Samples.july2025 Samples.tokyoEnv
           (Samples.dateFlag "2025-02-30")).
  - reflexivity.
  - discriminate.
  - vm_compute. discriminate.
Defined.

(* ================================================================= *)
(** ** [main] from end to end *)

Module MainFacts.
Import time Effects Main Props Observe TimeFacts ScanFacts BizFacts.

Lemma stdoutOf_app (a b : list Event) : stdoutOf (a ++ b) = stdoutOf a ++ stdoutOf b.
Proof. unfold stdoutOf. apply flat_map_app. Qed.

Lemma stderrOf_app (a b : list Event) : stderrOf (a ++ b) = stderrOf a ++ stderrOf b.
Proof. unfold stderrOf. apply flat_map_app. Qed.

Lemma queried_app (a b : list Event) : queried (a ++ b) = queried a ++ queried b.
Proof. unfold queried. apply flat_map_app. Qed.

Lemma probed_app (a b : list Event) : probed (a ++ b) = probed a ++ probed b.
Proof. unfold probed. apply flat_map_app. Qed.

(** The loop writes nothing. *)
Lemma probeEvents_silent (l : list Time) :
  stdoutOf (flat_map probeEvents l) = [] /\ stderrOf (flat_map probeEvents l) = [].
Proof.
  induction l as [|c l [IHo IHe]]; [split; reflexivity|].
  cbn [flat_map]. rewrite stdoutOf_app, stderrOf_app, IHo, IHe.
  unfold probeEvents. destruct (isWeekend c); split; reflexivity.
Qed.

Lemma resultLines_stderr (flags : Flags) (b d : Time) : stderrOf (resultLines flags b d) = [].
Proof. unfold resultLines. destruct (verbose flags); reflexivity. Qed.

Lemma resultLines_quiet (flags : Flags) (b d : Time) :
  queried (resultLines flags b d) = [] /\ probed (resultLines flags b d) = [].
Proof. unfold resultLines. destruct (verbose flags); split; reflexivity. Qed.

Section WithOracle.
Variable oracle : Oracle.

Lemma find_silent (from : Time) :
  stdoutOf (trace (findPreviousBusinessDay oracle from)) = []
  /\ stderrOf (trace (findPreviousBusinessDay oracle from)) = [].
Proof.
  destruct (FindFacts.find_shape oracle from) as (p & _ & -> & _).
  apply probeEvents_silent.
Qed.

(** [main] once it has a base date: the search, then the report. *)
Lemma main_with_base (env : Env) (flags : Flags) (base : Time) :
  help flags = false ->
  baseDateOf env flags = Some base ->
  main oracle env flags
  = match findPreviousBusinessDay oracle base with
    | ((_, Some e), tr) => (ExitStatus 1, tr ++ [Stderr (ErrorReport e)])
    | ((d, None), tr) => (ExitStatus 0, tr ++ resultLines flags base d)
    end.
Proof.
  intros Hhelp Hbase. unfold main, baseDateOf in *. rewrite Hhelp.
  assert (K : forall b,
    (let '(prevBizDay, err) := result (findPreviousBusinessDay oracle b) in
     (match err with
      | Some e => (ExitStatus 1, trace (findPreviousBusinessDay oracle b)
                                 ++ [Stderr (ErrorReport e)])
      | None => (ExitStatus 0, trace (findPreviousBusinessDay oracle b)
                               ++ resultLines flags b prevBizDay)
      end)) =
    match findPreviousBusinessDay oracle b with
    | ((_, Some e), tr) => (ExitStatus 1, tr ++ [Stderr (ErrorReport e)])
    | ((d, None), tr) => (ExitStatus 0, tr ++ resultLines flags b d)
    end).
  { intros b. destruct (findPreviousBusinessDay oracle b) as [[d [e|]] tr]; reflexivity. }
  destruct (String.eqb (dateStr flags) EmptyString).
  - destruct (LoadTokyo env) as [jst|]; [|discriminate].
    injection Hbase as <-. rewrite <- K.
    destruct (findPreviousBusinessDay oracle (In_ (Now env) jst)) as [[d [e|]] tr];
      cbn [result trace fst snd bind]; [reflexivity|].
    unfold resultLines, outputVerbose, outputSimple, bind, emit, ret.
    destruct (verbose flags); cbn [app]; rewrite ?app_nil_r; reflexivity.
  - destruct (Parse_2006_01_02 (dateStr flags)) as [b [pe|]]; [discriminate|].
    injection Hbase as <-. rewrite <- K.
    destruct (findPreviousBusinessDay oracle b) as [[d [e|]] tr];
      cbn [result trace fst snd bind]; [reflexivity|].
    unfold resultLines, outputVerbose, outputSimple, bind, emit, ret.
    destruct (verbose flags); cbn [app]; rewrite ?app_nil_r; reflexivity.
Qed.

(** [main] when it does not get to a base date. *)
Lemma main_without_base (env : Env) (flags : Flags) :
  help flags = false ->
  baseDateOf env flags = None ->
  main oracle env flags
  = if String.eqb (dateStr flags) EmptyString then (Panic, [])
    else (ExitStatus 1, [Stderr (InvalidDateFormat (dateStr flags))]).
Proof.
  intros Hhelp Hbase. unfold main, baseDateOf in *. rewrite Hhelp.
  destruct (String.eqb (dateStr flags) EmptyString).
  - destruct (LoadTokyo env); [discriminate | reflexivity].
  - destruct (Parse_2006_01_02 (dateStr flags)) as [b [pe|]]; [reflexivity | discriminate].
Qed.

(** What a successful search returns. *)
Lemma find_success_facts (from d : Time) :
  result (findPreviousBusinessDay oracle from) = (d, None) ->
  businessDay oracle d = true
  /\ absDays from - 30 <= absDays d < absDays from
  /\ (forall c, absDays d < absDays c < absDays from -> businessDay oracle c = false).
Proof.
  intros Hres. destruct (find_success oracle from d Hres) as (q & Hq & -> & Hacc & Hrej).
  split; [apply verdict_Accepted; exact Hacc|].
  rewrite absDays_daysBefore. split; [lia|].
  intros c Hc.
  destruct (Z_of_nat_complete (absDays from - absDays c - 1) ltac:(lia)) as [j Hj].
  assert (E : absDays c = absDays (daysBefore_ from (1 + Z.of_nat j)))
    by (rewrite absDays_daysBefore; lia).
  rewrite (businessDay_absDays oracle _ _ E).
  apply Rejected_not_businessDay, Hrej. lia.
Qed.

(** What a failed search returns. *)
Lemma find_error_zero (from d : Time) (e : error) :
  result (findPreviousBusinessDay oracle from) = (d, Some e) -> d = zero.
Proof.
  intros Hres.
  destruct (FindFacts.find_shape oracle from) as (p & _ & _ & _ & Hlast).
  destruct (verdict oracle (daysBefore_ from (1 + Z.of_nat p))) as [| |e'].
  - destruct Hlast as [_ Hlast]. congruence.
  - congruence.
  - congruence.
Qed.

Lemma main_help (env : Env) (flags : Flags) :
  help flags = true -> main oracle env flags = (ExitStatus 0, [Stdout HelpText]).
Proof. intros H. unfold main. rewrite H. reflexivity. Qed.

End WithOracle.
End MainFacts.

Import time Effects Main Props Observe TimeFacts ScanFacts BizFacts MainFacts.

(** X1: when [main] exits with status 0 without [-help], it had a base
    date, nothing went to standard error, and what it printed names a
    business day: a day that is not a weekend and not a reported holiday,
    strictly before the base date and at most 30 days before it, with no
    business day between the two. *)
Theorem main_success_prints_business_day
    (oracle : Oracle) (env : Env) (flags : Flags) :
  help flags = false ->
  result (main oracle env flags) = ExitStatus 0 ->
  exists base d : Time,
    baseDateOf env flags = Some base
    /\ result (findPreviousBusinessDay oracle base) = (d, None)
    /\ trace (main oracle env flags)
       = trace (findPreviousBusinessDay oracle base) ++ resultLines flags base d
    /\ stdoutOf (trace (main oracle env flags)) = stdoutOf (resultLines flags base d)
    /\ stderrOf (trace (main oracle env flags)) = []
    /\ businessDay oracle d = true
    /\ absDays base - 30 <= absDays d < absDays base
    /\ (forall c, absDays d < absDays c < absDays base -> businessDay oracle c = false).
Proof.
  intros Hhelp Hexit.
  destruct (baseDateOf env flags) as [base|] eqn:Hbase.
  2:{ rewrite (main_without_base oracle env flags Hhelp Hbase) in Hexit.
      destruct (String.eqb _ _); discriminate Hexit. }
  pose proof (main_with_base oracle env flags base Hhelp Hbase) as Hmain.
  pose proof (find_silent oracle base) as [Hso Hse].
  destruct (findPreviousBusinessDay oracle base) as [[d [e|]] tr] eqn:Hfind;
    rewrite Hmain in Hexit |- *; [discriminate Hexit|].
  exists base, d. cbn [trace result fst snd] in *.
  assert (Hres : result (findPreviousBusinessDay oracle base) = (d, None))
    by (rewrite Hfind; reflexivity).
  destruct (find_success_facts oracle base d Hres) as (Hbiz & Hrange & Hbetween).
  split; [reflexivity|]. split; [exact Hres|].
  split; [rewrite Hfind; reflexivity|].
  split; [rewrite stdoutOf_app, Hso; reflexivity|].
  split; [rewrite stderrOf_app, Hse, resultLines_stderr; reflexivity|].
  split; [exact Hbiz|]. split; [exact Hrange | exact Hbetween].
Qed.

Lemma main_success_prints_business_day_witness :
  exists base d : Time,
    baseDateOf Samples.tokyoEnv (Samples.dateFlag "2025-07-22") = Some base
    /\ stdoutOf (trace (main Samples.july2025 Samples.tokyoEnv (Samples.dateFlag "2025-07-22")))
       = [DateLine 2025 7 18]
    /\ businessDay Samples.july2025 d = true.
Proof.
  destruct (main_success_prints_business_day Samples.july2025 Samples.tokyoEnv
              (Samples.dateFlag "2025-07-22"))
    as (base & d & Hb & _ & _ & _ & _ & Hbiz & _).
  - reflexivity.
  - vm_compute. reflexivity.
  - exists base, d. split; [exact Hb|]. split; [vm_compute; reflexivity | exact Hbiz].
Defined.

(** X2: when [main] exits with status 1, nothing was written to standard
    output and exactly one message went to standard error, as the last
    event.  It is the invalid-date message, with no query made, when the
    [-date] argument did not parse; otherwise it reports the error of the
    search from the base date. *)
Theorem main_failure_reports_once (oracle : Oracle) (env : Env) (flags : Flags) :
  result (main oracle env flags) = ExitStatus 1 ->
  help flags = false
  /\ stdoutOf (trace (main oracle env flags)) = []
  /\ exists (msg : Output) (before : list Event),
       trace (main oracle env flags) = before ++ [Stderr msg]
       /\ stderrOf (trace (main oracle env flags)) = [msg]
       /\ ((baseDateOf env flags = None
            /\ msg = InvalidDateFormat (dateStr flags)
            /\ before = [])
           \/ (exists base e,
                 baseDateOf env flags = Some base
                 /\ findPreviousBusinessDay oracle base = ((zero, Some e), before)
                 /\ msg = ErrorReport e)).
Proof.
  intros Hexit.
  destruct (help flags) eqn:Hhelp.
  { rewrite (main_help oracle env flags Hhelp) in Hexit. discriminate Hexit. }
  split; [reflexivity|].
  destruct (baseDateOf env flags) as [base|] eqn:Hbase.
  - pose proof (main_with_base oracle env flags base Hhelp Hbase) as Hmain.
    pose proof (find_silent oracle base) as [Hso Hse].
    pose proof (find_error_zero oracle base) as Hz.
    destruct (findPreviousBusinessDay oracle base) as [[d [e|]] tr] eqn:Hfind;
      rewrite Hmain in Hexit |- *; [|discriminate Hexit].
    cbn [trace result fst snd] in *.
    pose proof (Hz d e eq_refl) as Hd. subst d.
    split; [rewrite stdoutOf_app, Hso; reflexivity|].
    exists (ErrorReport e), tr. split; [reflexivity|].
    split; [rewrite stderrOf_app, Hse; reflexivity|].
    right. exists base, e. split; [reflexivity|]. split; [exact Hfind | reflexivity].
  - rewrite (main_without_base oracle env flags Hhelp Hbase) in Hexit |- *.
    destruct (String.eqb (dateStr flags) EmptyString); [discriminate Hexit|].
    cbn [trace snd]. split; [reflexivity|].
    exists (InvalidDateFormat (dateStr flags)), []. split; [reflexivity|].
    split; [reflexivity|]. left. split; [reflexivity|]. split; reflexivity.
Qed.

Lemma main_failure_reports_once_witness :
  stdoutOf (trace (main Samples.outage Samples.tokyoEnv (Samples.dateFlag "2025-07-22"))) = []
  /\ stdoutOf (trace (main Samples.outage Samples.tokyoEnv (Samples.dateFlag "22 July"))) = [].
Proof.
  split.
  - apply (main_failure_reports_once Samples.outage Samples.tokyoEnv
             (Samples.dateFlag "2025-07-22")). vm_compute. reflexivity.
  - apply (main_failure_reports_once Samples.outage Samples.tokyoEnv
             (Samples.dateFlag "22 July")). vm_compute. reflexivity.
Defined.

(** X3: how [main] can end.  With [-help] it prints the help and exits
    with status 0 whatever the other flags are.  Without it, the exit
    status is 0 or 1, or the process panics; it panics exactly when the
    [-date] argument is empty and the Asia/Tokyo location could not be
    loaded, and then it has done nothing. *)
Theorem main_outcomes (oracle : Oracle) (env : Env) (flags : Flags) :
  (help flags = true -> main oracle env flags = (ExitStatus 0, [Stdout HelpText]))
  /\ (result (main oracle env flags) = ExitStatus 0
      \/ result (main oracle env flags) = ExitStatus 1
      \/ result (main oracle env flags) = Panic)
  /\ (result (main oracle env flags) = Panic <->
      help flags = false /\ dateStr flags = EmptyString /\ LoadTokyo env = None)
  /\ (result (main oracle env flags) = Panic -> trace (main oracle env flags) = []).
Proof.
  split; [apply main_help|].
  destruct (help flags) eqn:Hhelp.
  { rewrite (main_help oracle env flags Hhelp). cbn [result trace fst snd].
    split; [left; reflexivity|]. split; [|discriminate].
    split; [discriminate | intros [H _]; discriminate H]. }
  destruct (baseDateOf env flags) as [base|] eqn:Hbase.
  - rewrite (main_with_base oracle env flags base Hhelp Hbase).
    assert (Hnp : ~ (dateStr flags = EmptyString /\ LoadTokyo env = None)).
    { intros [Hd Ht]. unfold baseDateOf in Hbase. rewrite Hd, Ht in Hbase.
      discriminate Hbase. }
    destruct (findPreviousBusinessDay oracle base) as [[d [e|]] tr];
      cbn [result trace fst snd].
    + split; [right; left; reflexivity|]. split; [|discriminate].
      split; [discriminate | intros [_ H]; elim Hnp; exact H].
    + split; [left; reflexivity|]. split; [|discriminate].
      split; [discriminate | intros [_ H]; elim Hnp; exact H].
  - rewrite (main_without_base oracle env flags Hhelp Hbase).
    unfold baseDateOf in Hbase.
    destruct (String.eqb (dateStr flags) EmptyString) eqn:Heq; cbn [result trace fst snd].
    + apply String.eqb_eq in Heq.
      destruct (LoadTokyo env); [discriminate Hbase|].
      split; [right; right; reflexivity|]. split; [|reflexivity].
      split; [intros _; split; [reflexivity | split; [exact Heq | reflexivity]] | reflexivity].
    + apply String.eqb_neq in Heq.
      split; [right; left; reflexivity|]. split; [|discriminate].
      split; [discriminate | intros (_ & H & _); elim Heq; exact H].
Qed.

(* ================================================================= *)
(** ** Only the calendar day of the base date matters *)

Module SameDay.
Import time Effects Main Props Observe TimeFacts ScanFacts BizFacts MainFacts.

Lemma fields_absDays (t u : Time) :
  absDays t = absDays u ->
  Year t = Year u /\ Month t = Month u /\ Day t = Day u /\ Weekday_ t = Weekday_ u.
Proof.
  intros E. unfold Year, Month, Day. rewrite (dateOf_absDays t u E).
  rewrite (Weekday_absDays t u E). auto.
Qed.

Lemma observable_app (a b : list Event) :
  observable (a ++ b) = observable a ++ observable b.
Proof. unfold observable. apply filter_app. Qed.

Lemma observable_probeEvents (t u : Time) :
  absDays t = absDays u -> observable (probeEvents t) = observable (probeEvents u).
Proof.
  intros E. unfold probeEvents. rewrite (isWeekend_absDays t u E).
  destruct (fields_absDays t u E) as (-> & -> & -> & _). reflexivity.
Qed.

Lemma resultLines_absDays (flags : Flags) (b1 b2 d1 d2 : Time) :
  absDays b1 = absDays b2 -> absDays d1 = absDays d2 ->
  resultLines flags b1 d1 = resultLines flags b2 d2.
Proof.
  intros Eb Ed. unfold resultLines.
  destruct (fields_absDays b1 b2 Eb) as (-> & -> & -> & ->).
  destruct (fields_absDays d1 d2 Ed) as (-> & -> & -> & ->). reflexivity.
Qed.

Section WithOracle.
Variable oracle : Oracle.

Lemma verdict_absDays (t u : Time) :
  absDays t = absDays u -> verdict oracle t = verdict oracle u.
Proof.
  intros E. unfold verdict, reply. rewrite (isWeekend_absDays t u E).
  destruct (fields_absDays t u E) as (-> & -> & -> & _). reflexivity.
Qed.

Lemma scan_same_day (n : nat) (c1 c2 : Time) :
  absDays c1 = absDays c2 ->
  snd (result (scan oracle n c1)) = snd (result (scan oracle n c2))
  /\ absDays (fst (result (scan oracle n c1))) = absDays (fst (result (scan oracle n c2)))
  /\ observable (trace (scan oracle n c1)) = observable (trace (scan oracle n c2)).
Proof.
  revert c1 c2. induction n as [|n IH]; intros c1 c2 E.
  - split; [reflexivity|]. split; reflexivity.
  - rewrite !scan_S, <- (verdict_absDays c1 c2 E).
    pose proof (observable_probeEvents c1 c2 E) as Ho.
    destruct (verdict oracle c1) as [| |e]; cbn [result trace fst snd].
    + assert (E' : absDays (AddDate c1 0 0 (-1)) = absDays (AddDate c2 0 0 (-1)))
        by (rewrite !absDays_AddDate; lia).
      destruct (IH _ _ E') as (He & Hd & Htr).
      destruct (scan oracle n (AddDate c1 0 0 (-1))) as [r1 tr1],
               (scan oracle n (AddDate c2 0 0 (-1))) as [r2 tr2].
      cbn [result trace fst snd] in *.
      split; [exact He|]. split; [exact Hd|].
      rewrite !observable_app, Ho, Htr. reflexivity.
    + split; [reflexivity|]. split; [exact E | exact Ho].
    + split; [reflexivity|]. split; [reflexivity | exact Ho].
Qed.

End WithOracle.
End SameDay.

(** X4: the search depends on the base time only through its calendar
    day.  Two base times on the same day (whatever their time of day or
    location) give the same error or a result on the same calendar day,
    and the same queries in the same order. *)
Theorem find_depends_on_calendar_day (oracle : Oracle) (from1 from2 : Time) :
  absDays from1 = absDays from2 ->
  snd (result (findPreviousBusinessDay oracle from1))
  = snd (result (findPreviousBusinessDay oracle from2))
  /\ ymd (fst (result (findPreviousBusinessDay oracle from1)))
     = ymd (fst (result (findPreviousBusinessDay oracle from2)))
  /\ observable (trace (findPreviousBusinessDay oracle from1))
     = observable (trace (findPreviousBusinessDay oracle from2)).
Proof.
  intros E. unfold findPreviousBusinessDay.
  assert (E' : absDays (AddDate from1 0 0 (-1)) = absDays (AddDate from2 0 0 (-1)))
    by (rewrite !absDays_AddDate; lia).
  destruct (SameDay.scan_same_day oracle maxDays _ _ E') as (He & Hd & Htr).
  split; [exact He|]. split; [|exact Htr].
  rewrite !ymd_dateOf. apply dateOf_absDays. exact Hd.
Qed.

Lemma find_depends_on_calendar_day_witness :
  ymd (fst (result (findPreviousBusinessDay Samples.july2025
                      (Date 2025 7 22 23 59 59 0 Samples.JST))))
  = ymd (fst (result (findPreviousBusinessDay Samples.july2025 (Samples.day 2025 7 22)))).
Proof.
  apply (find_depends_on_calendar_day Samples.july2025
           (Date 2025 7 22 23 59 59 0 Samples.JST) (Samples.day 2025 7 22)).
  vm_compute. reflexivity.
Defined.

(** X5: running without [-date] is running with today's date in Tokyo.
    If the [-date] argument parses to the calendar date that the clock
    shows in the Asia/Tokyo location, [main] ends the same way and does
    the same queries and writes the same lines as it does with an empty
    [-date]. *)
Theorem main_default_date_is_today_in_tokyo
    (oracle : Oracle) (env : Env) (jst : Location) (s : string) (t : Time) (v h : bool) :
  LoadTokyo env = Some jst ->
  s <> EmptyString ->
  Parse_2006_01_02 s = (t, None) ->
  dateOf t = dateOf (In_ (Now env) jst) ->
  result (main oracle env (mkFlags s v h))
  = result (main oracle env (mkFlags EmptyString v h))
  /\ observable (trace (main oracle env (mkFlags s v h)))
     = observable (trace (main oracle env (mkFlags EmptyString v h))).
Proof.
  intros Htz Hs Hparse Hdate.
  destruct h.
  { rewrite !main_help by reflexivity. split; reflexivity. }
  assert (E : absDays t = absDays (In_ (Now env) jst)) by (apply dateOf_inj; exact Hdate).
  assert (B1 : baseDateOf env (mkFlags s v false) = Some t).
  { unfold baseDateOf. cbn [dateStr]. apply String.eqb_neq in Hs. rewrite Hs, Hparse.
    reflexivity. }
  assert (B2 : baseDateOf env (mkFlags EmptyString v false) = Some (In_ (Now env) jst)).
  { unfold baseDateOf. cbn [dateStr String.eqb]. rewrite Htz. reflexivity. }
  rewrite (main_with_base oracle env (mkFlags s v false) t eq_refl B1).
  rewrite (main_with_base oracle env (mkFlags EmptyString v false)
             (In_ (Now env) jst) eq_refl B2).
  unfold findPreviousBusinessDay.
  assert (E' : absDays (AddDate t 0 0 (-1)) = absDays (AddDate (In_ (Now env) jst) 0 0 (-1)))
    by (rewrite !absDays_AddDate; lia).
  destruct (SameDay.scan_same_day oracle maxDays _ _ E') as (He & Hd & Htr).
  destruct (scan oracle maxDays (AddDate t 0 0 (-1))) as [[d1 e1] tr1],
           (scan oracle maxDays (AddDate (In_ (Now env) jst) 0 0 (-1))) as [[d2 e2] tr2].
  cbn [result trace fst snd] in *. subst e2.
  destruct e1 as [e|]; cbn [result trace fst snd].
  - split; [reflexivity|]. rewrite !SameDay.observable_app, Htr. reflexivity.
  - split; [reflexivity|]. rewrite !SameDay.observable_app, Htr.
    rewrite (SameDay.resultLines_absDays _ t (In_ (Now env) jst) d1 d2 E Hd).
    unfold resultLines. cbn [verbose]. reflexivity.
Qed.

Lemma main_default_date_is_today_in_tokyo_witness :
  result (main Samples.july2025 Samples.tokyoEnv (mkFlags "2025-07-22" true false))
  = result (main Samples.july2025 Samples.tokyoEnv (mkFlags EmptyString true false))
  /\ observable (trace (main Samples.july2025 Samples.tokyoEnv (mkFlags "2025-07-22" true false)))
     = observable (trace (main Samples.july2025 Samples.tokyoEnv (mkFlags EmptyString true false))).
Proof.
  apply (main_default_date_is_today_in_tokyo Samples.july2025 Samples.tokyoEnv
           Samples.JST "2025-07-22" (Samples.day 2025 7 22) true false).
  - reflexivity.
  - discriminate.
  - vm_compute. reflexivity.
  - vm_compute. reflexivity.
Defined.

(* ================================================================= *)
(** ** Weekends *)

Module Weekends.
Import time Effects Main Props Observe TimeFacts ScanFacts BizFacts MainFacts.

Lemma mod7_cases (d : Z) :
  d mod 7 = 0 \/ d mod 7 = 1 \/ d mod 7 = 2 \/ d mod 7 = 3
  \/ d mod 7 = 4 \/ d mod 7 = 5 \/ d mod 7 = 6.
Proof. pose proof (Z.mod_pos_bound d 7 ltac:(lia)). lia. Qed.

(** The weekday of a day count, read off its remainder modulo 7
    (0 is Monday). *)
Lemma weekdayOfDays_rem (d r : Z) :
  d mod 7 = r -> weekdayOfDays d = Weekday_of_Z ((r + 1) mod 7).
Proof.
  intros Hr. unfold weekdayOfDays. f_equal.
  pose proof (Z.div_mod d 7 ltac:(lia)) as E.
  replace (d + 1) with (r + 1 + (d / 7) * 7) by lia.
  apply Z_mod_plus_full.
Qed.

Lemma rem_minus (d r k : Z) : d mod 7 = r -> (d - k) mod 7 = (r - k) mod 7.
Proof.
  intros Hr. pose proof (Z.div_mod d 7 ltac:(lia)) as E.
  replace (d - k) with (r - k + (d / 7) * 7) by lia.
  apply Z_mod_plus_full.
Qed.

Lemma Weekday_daysBefore (t : Time) (k r : Z) :
  absDays t mod 7 = r ->
  Weekday_ (daysBefore_ t k) = Weekday_of_Z (((r - k) mod 7 + 1) mod 7).
Proof.
  intros Hr. unfold Weekday_. rewrite absDays_daysBefore.
  apply weekdayOfDays_rem, rem_minus, Hr.
Qed.

(** The nearest earlier day that is not a weekend day is
    [backToWeekday] days back, and the days passed over are weekend days. *)
Lemma nearest_weekday (from : Time) :
  1 <= backToWeekday (Weekday_ from) <= 3
  /\ isWeekend (daysBefore_ from (backToWeekday (Weekday_ from))) = false
  /\ (forall j, 1 <= j < backToWeekday (Weekday_ from) ->
        isWeekend (daysBefore_ from j) = true).
Proof.
  assert (W : forall k r, absDays from mod 7 = r ->
            isWeekend (daysBefore_ from k)
            = (let w := Weekday_of_Z (((r - k) mod 7 + 1) mod 7) in
               Weekday_eqb w Saturday || Weekday_eqb w Sunday)).
  { intros k r Hr. unfold isWeekend. rewrite (Weekday_daysBefore from k r Hr). reflexivity. }
  assert (W0 : forall r, absDays from mod 7 = r ->
            Weekday_ from = Weekday_of_Z ((r + 1) mod 7)).
  { intros r Hr. apply weekdayOfDays_rem. exact Hr. }
  destruct (mod7_cases (absDays from)) as [E|[E|[E|[E|[E|[E|E]]]]]];
    rewrite (W0 _ E); cbn [backToWeekday Weekday_of_Z Z.add Z.modulo];
    (split; [cbn; lia|]); (split; [rewrite (W _ _ E); reflexivity|]);
    intros j Hj; cbn in Hj.
  - assert (Hc : j = 1 \/ j = 2) by lia.
    destruct Hc as [->| ->]; rewrite (W _ _ E); reflexivity.
  - lia.
  - lia.
  - lia.
  - lia.
  - lia.
  - assert (j = 1) by lia. subst j. rewrite (W _ _ E). reflexivity.
Qed.

Section WithOracle.
Variable oracle : Oracle.

(** The search walks over the weekend days just before the base date
    without a query, and its first query is for the nearest earlier
    weekday. *)
Lemma find_first_weekday (from : Time) :
  let k := backToWeekday (Weekday_ from) in
  let c := daysBefore_ from k in
  let walked := map Probe (preceding from (Z.to_nat (k - 1))) in
  findPreviousBusinessDay oracle from
  = let '(r, tr) := scan oracle (Z.to_nat (31 - k)) c in (r, walked ++ tr).
Proof.
  cbv zeta. destruct (nearest_weekday from) as (Hk & Hwk & Hwalk).
  set (k := backToWeekday (Weekday_ from)) in *.
  unfold findPreviousBusinessDay, maxDays.
  replace 30%nat with (Z.to_nat (k - 1) + Z.to_nat (31 - k))%nat by lia.
  change (AddDate from 0 0 (-1)) with (daysBefore_ from 1).
  assert (Hrej : forall j, (j < Z.to_nat (k - 1))%nat ->
            verdict oracle (daysBefore_ (daysBefore_ from 1) (Z.of_nat j)) = Rejected).
  { intros j Hj. rewrite daysBefore_daysBefore. apply verdict_Rejected. left.
    apply Hwalk. lia. }
  rewrite (scan_skip oracle _ _ _ Hrej), daysBefore_daysBefore.
  replace (1 + Z.of_nat (Z.to_nat (k - 1))) with k by lia.
  destruct (scan oracle (Z.to_nat (31 - k)) (daysBefore_ from k)) as [r tr].
  f_equal. f_equal. rewrite FindFacts.candidates_preceding.
  assert (Hall : forall c, In c (preceding from (Z.to_nat (k - 1))) -> isWeekend c = true).
  { intros c Hc. apply FindFacts.In_preceding in Hc as (j & Hj & ->). apply Hwalk. lia. }
  revert Hall. generalize (preceding from (Z.to_nat (k - 1))) as l.
  induction l as [|c l IH]; intros Hall; [reflexivity|].
  cbn [flat_map map]. unfold probeEvents at 1.
  rewrite (Hall c (or_introl eq_refl)). cbn [app]. f_equal.
  apply IH. intros c' Hc'. apply Hall. right. exact Hc'.
Qed.

End WithOracle.
End Weekends.

(** X6: when the oracle reports no holiday at all, the search succeeds
    for every base date with a single query: it returns the day before,
    or the Friday before when the base date is a Sunday (2 days back) or a
    Monday (3 days back). *)
Theorem no_holidays_previous_weekday (oracle : Oracle) (from : Time) :
  (forall y m d, reportedYMD oracle y m d = Some false) ->
  result (findPreviousBusinessDay oracle from)
  = (AddDate from 0 0 (- backToWeekday (Weekday_ from)), None)
  /\ isWeekend (AddDate from 0 0 (- backToWeekday (Weekday_ from))) = false
  /\ queried (trace (findPreviousBusinessDay oracle from))
     = [ymd (AddDate from 0 0 (- backToWeekday (Weekday_ from)))].
Proof.
  intros Hno. rewrite Weekends.find_first_weekday.
  destruct (Weekends.nearest_weekday from) as (Hk & Hwk & _).
  fold (daysBefore_ from (backToWeekday (Weekday_ from))).
  set (k := backToWeekday (Weekday_ from)) in *.
  set (c := daysBefore_ from k) in *.
  assert (V : verdict oracle c = Accepted).
  { apply verdict_Accepted. unfold businessDay, reported. rewrite Hwk, Hno. reflexivity. }
  replace (Z.to_nat (31 - k)) with (S (Z.to_nat (30 - k))) by lia.
  rewrite scan_S, V. cbn [result trace fst snd].
  split; [reflexivity|]. split; [exact Hwk|].
  rewrite queried_app. unfold probeEvents. rewrite Hwk.
  assert (Hq : forall l, queried (map Probe l) = []).
  { induction l as [|x l IH]; [reflexivity | exact IH]. }
  rewrite Hq. reflexivity.
Qed.

Lemma no_holidays_previous_weekday_witness :
  result (findPreviousBusinessDay Samples.noHolidays (Samples.day 2025 7 27))
  = (Samples.day 2025 7 25, None).
Proof.
  destruct (no_holidays_previous_weekday Samples.noHolidays (Samples.day 2025 7 27))
    as (H & _).
  - intros y m d. reflexivity.
  - rewrite H. vm_compute. reflexivity.
Defined.

(** X7: when the oracle call for the nearest weekday before the base date
    fails, the search fails with that error after this one query; at most
    three candidates were examined. *)
Theorem service_down_fails_after_one_query (oracle : Oracle) (from : Time) :
  reported oracle (AddDate from 0 0 (- backToWeekday (Weekday_ from))) = None ->
  exists e,
    callError oracle (AddDate from 0 0 (- backToWeekday (Weekday_ from))) = Some e
    /\ result (findPreviousBusinessDay oracle from) = (zero, Some (ErrBizDayCheck e))
    /\ queried (trace (findPreviousBusinessDay oracle from))
       = [ymd (AddDate from 0 0 (- backToWeekday (Weekday_ from)))]
    /\ (List.length (probed (trace (findPreviousBusinessDay oracle from))) <= 3)%nat.
Proof.
  fold (daysBefore_ from (backToWeekday (Weekday_ from))).
  intros Hdown. rewrite Weekends.find_first_weekday.
  destruct (Weekends.nearest_weekday from) as (Hk & Hwk & _).
  set (k := backToWeekday (Weekday_ from)) in *.
  set (c := daysBefore_ from k) in *.
  apply callError_reported in Hdown as [e He]. exists e.
  assert (V : verdict oracle c = Failed e) by (apply verdict_Failed; split; assumption).
  replace (Z.to_nat (31 - k)) with (S (Z.to_nat (30 - k))) by lia.
  rewrite scan_S, V. cbn [result trace fst snd].
  split; [exact He|]. split; [reflexivity|].
  rewrite queried_app, probed_app. unfold probeEvents. rewrite Hwk.
  assert (Hq : forall l, queried (map Probe l) = [] /\ probed (map Probe l) = l).
  { induction l as [|x l [IH1 IH2]]; [split; reflexivity|].
    split; [exact IH1 | cbn; f_equal; exact IH2]. }
  destruct (Hq (preceding from (Z.to_nat (k - 1)))) as [-> ->].
  split; [reflexivity|].
  rewrite length_app, FindFacts.preceding_length. cbn. lia.
Qed.

Lemma service_down_fails_after_one_query_witness :
  exists e,
    result (findPreviousBusinessDay Samples.outage (Samples.day 2025 7 21))
    = (zero, Some (ErrBizDayCheck e)).
Proof.
  destruct (service_down_fails_after_one_query Samples.outage (Samples.day 2025 7 21))
    as (e & _ & H & _).
  - vm_compute. reflexivity.
  - exists e. exact H.
Defined.

(** X8: in verbose mode a successful run prints two lines, the base date
    and the business day found, each with the label of its weekday; the
    label of the business day is one of Monday to Friday's, never
    Saturday's or Sunday's. *)
Theorem verbose_result_label_is_workday (oracle : Oracle) (env : Env) (flags : Flags) :
  help flags = false ->
  verbose flags = true ->
  result (main oracle env flags) = ExitStatus 0 ->
  exists base d : Time,
    baseDateOf env flags = Some base
    /\ result (findPreviousBusinessDay oracle base) = (d, None)
    /\ stdoutOf (trace (main oracle env flags))
       = [BaseLine (Year base) (Month base) (Day base) (weekdayJP (Weekday_ base));
          ResultLine (Year d) (Month d) (Day d) (weekdayJP (Weekday_ d))]
    /\ In (weekdayJP (Weekday_ d)) workdayLabels
    /\ weekdayJP (Weekday_ d) <> weekdayJP Saturday
    /\ weekdayJP (Weekday_ d) <> weekdayJP Sunday.
Proof.
  intros Hhelp Hverb Hexit.
  destruct (baseDateOf env flags) as [base|] eqn:Hbase.
  2:{ rewrite (main_without_base oracle env flags Hhelp Hbase) in Hexit.
      destruct (String.eqb _ _); discriminate Hexit. }
  pose proof (main_with_base oracle env flags base Hhelp Hbase) as Hmain.
  pose proof (find_silent oracle base) as [Hso _].
  destruct (findPreviousBusinessDay oracle base) as [[d [e|]] tr] eqn:Hfind;
    rewrite Hmain in Hexit |- *; [discriminate Hexit|].
  cbn [trace result fst snd] in *.
  assert (Hres : result (findPreviousBusinessDay oracle base) = (d, None))
    by (rewrite Hfind; reflexivity).
  destruct (find_success_facts oracle base d Hres) as (Hbiz & _).
  unfold businessDay in Hbiz. apply andb_true_iff in Hbiz as [Hwk _].
  exists base, d. split; [reflexivity|]. split; [exact Hres|].
  split.
  { rewrite stdoutOf_app, Hso. unfold resultLines. rewrite Hverb. reflexivity. }
  unfold isWeekend in Hwk. unfold workdayLabels.
  destruct (Weekday_ d); cbn in Hwk; try discriminate Hwk;
    (split; [cbn; tauto | split; discriminate]).
Qed.

Lemma verbose_result_label_is_workday_witness :
  exists base d : Time,
    baseDateOf Samples.tokyoEnv (mkFlags "2025-07-22" true false) = Some base
    /\ In (weekdayJP (Weekday_ d)) workdayLabels.
Proof.
  destruct (verbose_result_label_is_workday Samples.july2025 Samples.tokyoEnv
              (mkFlags "2025-07-22" true false))
    as (base & d & Hb & _ & _ & Hl & _).
  - reflexivity.
  - reflexivity.
  - vm_compute. reflexivity.
  - exists base, d. split; [exact Hb | exact Hl].
Defined.

(** X9: the labels of [weekdayJP] tell the weekdays apart, and no weekday
    lacks one. *)
Theorem weekdayJP_injective (a b : Weekday) :
  (weekdayJP a = weekdayJP b -> a = b) /\ weekdayJP a <> EmptyString.
Proof.
  split; [|destruct a; discriminate].
  destruct a, b; intros H; try reflexivity; discriminate H.
Qed.

(** X10: every base date between a result and the base date it was found
    from has the same previous business day: if the search from [from]
    returns [d], the search from any day after [d] and up to [from]
    succeeds and returns the date of [d]. *)
Theorem same_result_from_days_between (oracle : Oracle) (from d b : Time) :
  result (findPreviousBusinessDay oracle from) = (d, None) ->
  absDays d < absDays b <= absDays from ->
  snd (result (findPreviousBusinessDay oracle b)) = None
  /\ ymd (fst (result (findPreviousBusinessDay oracle b))) = ymd d.
Proof.
  intros Hres Hb.
  destruct (find_success oracle from d Hres) as (q & Hq & -> & Hacc & Hrej).
  rewrite absDays_daysBefore in Hb.
  destruct (Z_of_nat_complete (absDays from - absDays b) ltac:(lia)) as [i Hi].
  assert (E : absDays (AddDate b 0 0 (-1))
              = absDays (daysBefore_ from (1 + Z.of_nat i))).
  { rewrite absDays_AddDate, absDays_daysBefore. lia. }
  unfold findPreviousBusinessDay.
  destruct (SameDay.scan_same_day oracle maxDays _ _ E) as (He & Hd & _).
  rewrite He, !ymd_dateOf, (dateOf_absDays _ _ Hd). clear He Hd E.
  unfold maxDays.
  replace 30%nat with ((q - i) + S (29 - (q - i)))%nat by lia.
  rewrite scan_skip.
  - rewrite daysBefore_daysBefore.
    replace (1 + Z.of_nat i + Z.of_nat (q - i)) with (1 + Z.of_nat q) by lia.
    rewrite scan_S, Hacc. cbn [result fst snd]. split; reflexivity.
  - intros j Hj. rewrite daysBefore_daysBefore.
    replace (1 + Z.of_nat i + Z.of_nat j) with (1 + Z.of_nat (i + j)) by lia.
    apply Hrej. lia.
Qed.

Lemma same_result_from_days_between_witness :
  ymd (fst (result (findPreviousBusinessDay Samples.july2025 (Samples.day 2025 7 20))))
  = ymd (Samples.day 2025 7 18).
Proof.
  apply (same_result_from_days_between Samples.july2025 (Samples.day 2025 7 22)).
  - vm_compute. reflexivity.
  - vm_compute. split; [reflexivity | discriminate].
Defined.

(* ================================================================= *)
(** ** How many queries a run makes *)

Module QueryCount.
Import time Effects Main Props Observe TimeFacts ScanFacts BizFacts MainFacts.

Lemma isWeekend_weekendAt (from : Time) (r : Z) (j : nat) :
  absDays from mod 7 = r ->
  isWeekend (daysBefore_ from (1 + Z.of_nat j)) = weekendAt r j.
Proof.
  intros Hr. unfold isWeekend, weekendAt.
  rewrite (Weekends.Weekday_daysBefore from _ r Hr). reflexivity.
Qed.

Lemma weekdays_preceding (from : Time) (r : Z) (n : nat) :
  absDays from mod 7 = r ->
  List.length (filter (fun c => negb (isWeekend c)) (preceding from n))
  = List.length (filter (fun j => negb (weekendAt r j)) (seq 0 n)).
Proof.
  intros Hr. unfold preceding.
  induction (seq 0 n) as [|j l IH]; [reflexivity|].
  cbn [map filter]. rewrite (isWeekend_weekendAt from r j Hr).
  destruct (weekendAt r j); cbn [negb List.length]; rewrite IH; reflexivity.
Qed.

Lemma weekdays_prefix (r : Z) (n : nat) :
  (n <= 30)%nat ->
  (List.length (filter (fun j => negb (weekendAt r j)) (seq 0 n)) <= maxQueries r)%nat.
Proof.
  intros Hn. unfold maxQueries.
  replace 30%nat with (n + (30 - n))%nat by lia.
  rewrite seq_app, filter_app, length_app. lia.
Qed.

Lemma maxQueries_bound (r : Z) : 0 <= r < 7 -> (maxQueries r <= 22)%nat.
Proof.
  intros Hr.
  assert (Hc : r = 0 \/ r = 1 \/ r = 2 \/ r = 3 \/ r = 4 \/ r = 5 \/ r = 6) by lia.
  destruct Hc as [->|[->|[->|[->|[->|[->| ->]]]]]]; vm_compute; lia.
Qed.

Lemma NoDup_map_injective {A B : Type} (f : A -> B) (l : list A) :
  (forall x y, f x = f y -> x = y) -> NoDup l -> NoDup (map f l).
Proof.
  intros Hinj. induction 1 as [|x l Hnin Hnd IH]; cbn [map]; constructor; [|exact IH].
  intros Hin. apply in_map_iff in Hin as (y & Hy & Hin).
  apply Hinj in Hy. subst y. exact (Hnin Hin).
Qed.

Lemma preceding_NoDup (from : Time) (n : nat) : NoDup (map ymd (preceding from n)).
Proof.
  unfold preceding. rewrite map_map.
  apply NoDup_map_injective; [|apply seq_NoDup].
  intros i j E. apply FindFacts.daysBefore_inj_ymd in E. lia.
Qed.

Section Distinct.
Context {A B : Type} (key : A -> B) (keep : A -> bool).

(** Dropping elements keeps the keys of the others distinct. *)
Lemma distinct_keys_kept (xs : list A) :
  NoDup (map key xs) -> NoDup (map key (filter keep xs)).
Proof.
  induction xs as [|x xs IH]; intros H; [constructor|].
  cbn [map] in H. inversion H as [|? ? Hnin Hnd]; subst.
  cbn [filter]. destruct (keep x); [|apply IH; exact Hnd].
  cbn [map]. constructor; [|apply IH; exact Hnd].
  intros Hin. apply Hnin. apply in_map_iff in Hin as (y & Hy & Hin).
  apply filter_In in Hin as [Hin _]. apply in_map_iff. exists y. auto.
Qed.

End Distinct.

End QueryCount.

(** X11: a run never asks the oracle twice about the same date, and it
    makes at most 22 queries: among the 30 days before any date at least 8
    are Saturdays or Sundays. *)
Theorem at_most_22_distinct_queries (oracle : Oracle) (from : Time) :
  NoDup (queried (trace (findPreviousBusinessDay oracle from)))
  /\ (List.length (queried (trace (findPreviousBusinessDay oracle from))) <= 22)%nat.
Proof.
  destruct (FindFacts.find_shape oracle from) as (p & Hp & -> & _).
  rewrite queried_probeEvents. split.
  - apply QueryCount.distinct_keys_kept, QueryCount.preceding_NoDup.
  - rewrite length_map.
    rewrite (QueryCount.weekdays_preceding from (absDays from mod 7) (S p) eq_refl).
    etransitivity; [apply QueryCount.weekdays_prefix; lia|].
    apply QueryCount.maxQueries_bound. apply Z.mod_pos_bound. lia.
Qed.

(* ================================================================= *)
(** ** A valid date is the date of its day count *)

Module CalendarInverse.
Import time CalendarCheck YearCheck Calendar TimeFacts.

Lemma years_sound (n : positive) :
  snd (Pos.iter yearStep (0, true) n) = true ->
  forall y, 0 <= y < fst (Pos.iter yearStep (0, true) n) -> okYear y = true.
Proof.
  apply (Pos.iter_invariant n _ yearStep
           (fun st => snd st = true -> forall y, 0 <= y < fst st -> okYear y = true)).
  - intros [k b] IH; cbn [yearStep fst snd]; intros Hb y Hy.
    apply andb_true_iff in Hb as [Hb Hk].
    destruct (Z.eq_dec y k) as [->|Hne]; [exact Hk|].
    apply IH; [exact Hb | cbn [fst]; lia].
  - cbn [fst snd]; intros _ y Hy; lia.
Qed.

Lemma years_checked : Pos.iter yearStep (0, true) 400 = (400, true).
Proof. vm_compute. reflexivity. Qed.

Lemma daysSinceEpoch_succ (y : Z) :
  daysSinceEpoch (y + 1) = daysSinceEpoch y + yearLen y.
Proof.
  pose proof (Z.div_mod y 400 ltac:(lia)) as E.
  pose proof (Z.mod_pos_bound y 400 ltac:(lia)) as Hb.
  remember (y / 400) as q eqn:Hq. remember (y mod 400) as r eqn:Hr.
  clear Hq Hr. subst y.
  assert (Hok : okYear r = true).
  { apply (years_sound 400); rewrite years_checked; [reflexivity | exact Hb]. }
  unfold okYear in Hok. apply Z.eqb_eq in Hok.
  replace (400 * q + r + 1) with (400 * q + (r + 1)) by lia.
  unfold yearLen in *. rewrite !daysSinceEpoch_shift, isLeap_shift, Hok. lia.
Qed.

Lemma yearLen_pos (y : Z) : 365 <= yearLen y.
Proof. unfold yearLen. destruct (isLeap y); lia. Qed.

Lemma daysSinceEpoch_mono (y : Z) (k : nat) :
  daysSinceEpoch y + 365 * Z.of_nat k <= daysSinceEpoch (y + Z.of_nat k).
Proof.
  induction k as [|k IH]; [replace (y + Z.of_nat 0) with y by lia; lia|].
  replace (y + Z.of_nat (S k)) with (y + Z.of_nat k + 1) by lia.
  rewrite daysSinceEpoch_succ. pose proof (yearLen_pos (y + Z.of_nat k)). lia.
Qed.

Lemma dayCount_valid (y m d : Z) :
  1 <= m <= 12 -> dayCount y m d = daysSinceEpoch y + yearDay y m d.
Proof.
  intros Hm. unfold dayCount, yearDay.
  rewrite (Z.div_small (m - 1) 12), (Z.mod_small (m - 1) 12) by lia.
  rewrite Z.add_0_r. replace (m - 1 + 1) with m by lia.
  destruct (isLeap y && (m >=? 3)); lia.
Qed.

(** The days of a month occupy their own interval of the year. *)
Lemma yearDay_bounds (y m d : Z) :
  1 <= m <= 12 -> 1 <= d <= daysIn m y ->
  daysBefore (m - 1) + (if isLeap y && (m >=? 3) then 1 else 0) <= yearDay y m d
  /\ yearDay y m d < daysBefore m + (if isLeap y && (m + 1 >=? 3) then 1 else 0)
  /\ yearDay y m d < yearLen y.
Proof.
  intros Hm Hd. unfold yearDay, yearLen, daysIn in *.
  split_month m;
    destruct (isLeap y); lookup_daysBefore; lia.
Qed.

Lemma yearDay_inj (y m d m' d' : Z) :
  1 <= m <= 12 -> 1 <= d <= daysIn m y ->
  1 <= m' <= 12 -> 1 <= d' <= daysIn m' y ->
  yearDay y m d = yearDay y m' d' -> m = m' /\ d = d'.
Proof.
  intros Hm Hd Hm' Hd' E.
  assert (m = m').
  { pose proof (yearDay_bounds y m d Hm Hd) as (L & U & _).
    pose proof (yearDay_bounds y m' d' Hm' Hd') as (L' & U' & _).
    rewrite E in L, U. clear E Hd Hd'.
    destruct (isLeap y);
      split_month m;
      lookup_daysBefore;
      split_month m';
      lookup_daysBefore; lia. }
  subst m'. split; [reflexivity|]. unfold yearDay in E. lia.
Qed.

(** [civil] undoes [dayCount] on valid dates. *)
Lemma civil_dayCount (y m d : Z) :
  1 <= m <= 12 -> 1 <= d <= daysIn m y -> civil (dayCount y m d) = (y, m, d).
Proof.
  intros Hm Hd.
  pose proof (civil_spec (dayCount y m d)) as H.
  destruct (civil (dayCount y m d)) as [[y' m'] d']. destruct H as (Hm' & Hd' & E).
  rewrite !dayCount_valid in E by assumption.
  pose proof (yearDay_bounds y m d Hm Hd) as (L & _ & U).
  pose proof (yearDay_bounds y' m' d' Hm' Hd') as (L' & _ & U').
  assert (Hnn : forall yy mm, 1 <= mm <= 12 ->
            0 <= daysBefore (mm - 1) + (if isLeap yy && (mm >=? 3) then 1 else 0)).
  { intros yy mm Hmm.
    split_month mm;
      destruct (isLeap yy); lookup_daysBefore; lia. }
  pose proof (Hnn y m Hm). pose proof (Hnn y' m' Hm').
  assert (y = y').
  { destruct (Z.lt_trichotomy y y') as [Hlt|[Heq|Hgt]]; [|exact Heq|].
    - pose proof (daysSinceEpoch_mono (y + 1) (Z.to_nat (y' - y - 1))) as M.
      replace (y + 1 + Z.of_nat (Z.to_nat (y' - y - 1))) with y' in M by lia.
      rewrite daysSinceEpoch_succ in M. lia.
    - pose proof (daysSinceEpoch_mono (y' + 1) (Z.to_nat (y - y' - 1))) as M.
      replace (y' + 1 + Z.of_nat (Z.to_nat (y - y' - 1))) with y in M by lia.
      rewrite daysSinceEpoch_succ in M. lia. }
  subst y'.
  destruct (yearDay_inj y m' d' m d Hm' Hd' Hm Hd ltac:(lia)) as [-> ->]. reflexivity.
Qed.

(** A time built by [time.Date] from a valid date and a time of day shows
    that date, in its own location. *)
Lemma dateOf_Date (y m d h mi s ns : Z) (l : Location) :
  1 <= m <= 12 -> 1 <= d <= daysIn m y ->
  0 <= (h * 3600 + mi * 60 + s) * nsPerSecond + ns < nsPerDay ->
  dateOf (Date y m d h mi s ns l) = (y, m, d).
Proof.
  intros Hm Hd Hclock. unfold dateOf, absDays, abs, Date. cbn [inst loc].
  rewrite <- (civil_dayCount y m d Hm Hd). f_equal.
  set (c := (h * 3600 + mi * 60 + s) * nsPerSecond + ns) in *.
  replace ((dayCount y m d * secondsPerDay + h * 3600 + mi * 60 + s) * nsPerSecond + ns
           - zoneOffset l * nsPerSecond + zoneOffset l * nsPerSecond)
    with (c + dayCount y m d * nsPerDay) by (unfold c, nsPerDay; lia).
  rewrite Z.div_add by (unfold nsPerDay, secondsPerDay, nsPerSecond; lia).
  rewrite Z.div_small by exact Hclock. reflexivity.
Qed.

End CalendarInverse.

(* ================================================================= *)
(** ** [time.Parse] and [Time.Format] for ["2006-01-02"] *)

Module ParseFacts.
Import time timeFormat YearCheck TimeFacts CalendarInverse.

Lemma checkUpTo_sound (ok : Z -> bool) (n : positive) :
  snd (checkUpTo ok n) = true ->
  forall r, 0 <= r < fst (checkUpTo ok n) -> ok r = true.
Proof.
  unfold checkUpTo.
  apply (Pos.iter_invariant n _ (checkStep ok)
           (fun st => snd st = true -> forall r, 0 <= r < fst st -> ok r = true)).
  - intros [k b] IH; cbn [checkStep fst snd]; intros Hb r Hr.
    apply andb_true_iff in Hb as [Hb Hk].
    destruct (Z.eq_dec r k) as [->|Hne]; [exact Hk|].
    apply IH; [exact Hb | cbn [fst]; lia].
  - cbn [fst snd]; intros _ r Hr; lia.
Qed.

Lemma fields4_checked : checkUpTo okField4 10000 = (10000, true).
Proof. vm_compute. reflexivity. Qed.

Lemma fields2_checked : checkUpTo okField2 100 = (100, true).
Proof. vm_compute. reflexivity. Qed.

(** A year from 0 to 9999 is written with four digits. *)
Lemma field4 (y : Z) :
  0 <= y <= 9999 ->
  exists a b c e,
    appendInt y 4 = String a (String b (String c (String e EmptyString)))
    /\ isDigitByte a = true /\ isDigitByte b = true
    /\ isDigitByte c = true /\ isDigitByte e = true
    /\ ((byteVal a * 10 + byteVal b) * 10 + byteVal c) * 10 + byteVal e = y.
Proof.
  intros Hy.
  assert (Hok : okField4 y = true).
  { apply (checkUpTo_sound okField4 10000); rewrite fields4_checked;
      [reflexivity | cbn [fst]; lia]. }
  unfold okField4, digits4 in Hok.
  destruct (appendInt y 4) as [|a [|b [|c [|e [|x rest]]]]]; try discriminate Hok.
  destruct (isDigitByte a) eqn:Ha, (isDigitByte b) eqn:Hb,
           (isDigitByte c) eqn:Hc, (isDigitByte e) eqn:He;
    cbn [andb] in Hok; try discriminate Hok.
  apply Z.eqb_eq in Hok. exists a, b, c, e. auto 10.
Qed.

(** A month or a day is written with two digits. *)
Lemma field2 (v : Z) :
  0 <= v <= 99 ->
  exists a b,
    appendInt v 2 = String a (String b EmptyString)
    /\ isDigitByte a = true /\ isDigitByte b = true
    /\ byteVal a * 10 + byteVal b = v.
Proof.
  intros Hv.
  assert (Hok : okField2 v = true).
  { apply (checkUpTo_sound okField2 100); rewrite fields2_checked;
      [reflexivity | cbn [fst]; lia]. }
  unfold okField2, digits2 in Hok.
  destruct (appendInt v 2) as [|a [|b [|x rest]]]; try discriminate Hok.
  destruct (isDigitByte a) eqn:Ha, (isDigitByte b) eqn:Hb;
    cbn [andb] in Hok; try discriminate Hok.
  apply Z.eqb_eq in Hok. exists a, b. auto.
Qed.

Lemma isDigitByte_val (c : ascii) : isDigitByte c = true -> 0 <= byteVal c <= 9.
Proof. unfold isDigitByte, byteVal. cbv zeta. rewrite andb_true_iff. lia. Qed.

Lemma byteVal_inj (a b : ascii) : byteVal a = byteVal b -> a = b.
Proof.
  unfold byteVal. intros E.
  rewrite <- (ascii_N_embedding a), <- (ascii_N_embedding b). f_equal. lia.
Qed.

(** A digit is not a sign, so [atoi] reads it as a digit. *)
Lemma atoi_digit_first (a : ascii) (rest : string) :
  isDigitByte a = true ->
  atoi (String a rest)
  = let '(q, rem) := leadingInt (String a rest) 0 in
    match rem with
    | EmptyString => Some q
    | String _ _ => None
    end.
Proof.
  intros Ha. unfold atoi.
  destruct a as [[] [] [] [] [] [] [] []]; try reflexivity; vm_compute in Ha; discriminate Ha.
Qed.

Lemma skipDash_inv (v r : string) : skipDash v = Some r -> v = String "-" r.
Proof.
  destruct v as [|a v]; [discriminate|].
  destruct a as [[] [] [] [] [] [] [] []]; cbn; try discriminate.
  intros E. injection E as <-. reflexivity.
Qed.

Lemma getnum_fixed_inv (v r : string) (n : Z) :
  getnum v true = Some (n, r) ->
  exists a b, v = String a (String b r)
    /\ isDigitByte a = true /\ isDigitByte b = true /\ n = byteVal a * 10 + byteVal b.
Proof.
  unfold getnum. destruct v as [|a [|b v]].
  - discriminate.
  - destruct (isDigitByte a); discriminate.
  - destruct (isDigitByte a) eqn:Ha; cbn [negb]; [|discriminate].
    destruct (isDigitByte b) eqn:Hb; [|discriminate].
    intros E. injection E as <- <-. exists a, b. auto.
Qed.

Lemma getnum_fixed_digits (a b : ascii) (r : string) :
  isDigitByte a = true -> isDigitByte b = true ->
  getnum (String a (String b r)) true = Some (byteVal a * 10 + byteVal b, r).
Proof. intros Ha Hb. unfold getnum. rewrite Ha, Hb. reflexivity. Qed.

Lemma substring_all (s : string) : substring 0 (String.length s) s = s.
Proof. induction s as [|c s IH]; [reflexivity|]. cbn. rewrite IH. reflexivity. Qed.

(** What [Parse] does on a value of at least four bytes. *)
Lemma Parse_unfold (a b c e : ascii) (rest : string) :
  Parse_2006_01_02 (String a (String b (String c (String e rest))))
  = if negb (isDigitByte a) then (zero, Some errBad)
    else
      match atoi (String a (String b (String c (String e EmptyString)))) with
      | None => (zero, Some errBad)
      | Some year =>
        match skipDash rest with
        | None => (zero, Some errBad)
        | Some value =>
          match getnum value true with
          | None => (zero, Some errBad)
          | Some (month, value) =>
            if (month <=? 0) || (12 <? month) then (zero, Some errMonthRange)
            else
              match skipDash value with
              | None => (zero, Some errBad)
              | Some value =>
                match getnum value true with
                | None => (zero, Some errBad)
                | Some (day, value) =>
                  match value with
                  | String _ _ => (zero, Some errExtraText)
                  | EmptyString =>
                      if (day <? 1) || (daysIn month year <? day)
                      then (zero, Some errDayRange)
                      else (Date year month day 0 0 0 0 UTC, None)
                  end
                end
              end
          end
        end
      end.
Proof.
  unfold Parse_2006_01_02.
  change (String.length (String a (String b (String c (String e rest)))))
    with (S (S (S (S (String.length rest))))).
  change (S (S (S (S (String.length rest)))) <? 4)%nat with false.
  change (isDigit (String a (String b (String c (String e rest)))) 0)
    with (isDigitByte a).
  change (substring 0 4 (String a (String b (String c (String e rest)))))
    with (String a (String b (String c (String e (substring 0 0 rest))))).
  replace (substring 0 0 rest) with EmptyString by (destruct rest; reflexivity).
  change (substring 4 (S (S (S (S (String.length rest)))) - 4)
            (String a (String b (String c (String e rest)))))
    with (substring 0 (S (S (S (S (String.length rest)))) - 4) rest).
  replace (S (S (S (S (String.length rest)))) - 4)%nat with (String.length rest) by lia.
  rewrite substring_all. cbn [orb]. reflexivity.
Qed.

Lemma Parse_short (s : string) :
  (String.length s < 4)%nat -> Parse_2006_01_02 s = (zero, Some errBad).
Proof.
  intros H. unfold Parse_2006_01_02. apply Nat.ltb_lt in H. rewrite H. reflexivity.
Qed.

Lemma atoi_4 (a b c e : ascii) :
  isDigitByte a = true ->
  atoi (String a (String b (String c (String e EmptyString))))
  = if isDigitByte b && isDigitByte c && isDigitByte e
    then Some (((byteVal a * 10 + byteVal b) * 10 + byteVal c) * 10 + byteVal e)
    else None.
Proof.
  intros Ha. rewrite atoi_digit_first by exact Ha.
  cbn [leadingInt]. rewrite Ha.
  destruct (isDigitByte b); [|reflexivity].
  destruct (isDigitByte c); [|reflexivity].
  destruct (isDigitByte e); reflexivity.
Qed.

(** [Parse] accepts the text of every valid date of the years 0 to 9999,
    and gives midnight UTC of that date. *)
Lemma Parse_formatYMD (y m d : Z) :
  0 <= y <= 9999 -> 1 <= m <= 12 -> 1 <= d <= daysIn m y ->
  Parse_2006_01_02 (formatYMD y m d) = (Date y m d 0 0 0 0 UTC, None).
Proof.
  intros Hy Hm Hd.
  assert (Hd31 : daysIn m y <= 31).
  { unfold daysIn.
    split_month m;
      destruct (isLeap y); vm_compute; discriminate. }
  destruct (field4 y Hy) as (a & b & c & e & Ey & Ha & Hb & Hc & He & Vy).
  destruct (field2 m ltac:(lia)) as (f & g & Em & Hf & Hg & Vm).
  destruct (field2 d ltac:(lia)) as (h & i & Ed & Hh & Hi & Vd).
  unfold formatYMD. rewrite Ey, Em, Ed. cbn [append].
  rewrite Parse_unfold, Ha, atoi_4, Hb, Hc, He by exact Ha. cbn [negb andb skipDash].
  rewrite (getnum_fixed_digits f g _ Hf Hg), Vy, Vm.
  replace ((m <=? 0) || (12 <? m)) with false
    by (symmetry; apply orb_false_iff; split; [apply Z.leb_gt | apply Z.ltb_ge]; lia).
  cbn [skipDash].
  rewrite (getnum_fixed_digits h i _ Hh Hi), Vd.
  replace ((d <? 1) || (daysIn m y <? d)) with false
    by (symmetry; apply orb_false_iff; split; apply Z.ltb_ge; lia).
  reflexivity.
Qed.

(** Whatever [Parse] accepts is the text of a valid date of the years 0
    to 9999, and the result is midnight UTC of that date. *)
Lemma Parse_inv (s : string) (t : Time) :
  Parse_2006_01_02 s = (t, None) ->
  exists y m d,
    0 <= y <= 9999 /\ 1 <= m <= 12 /\ 1 <= d <= daysIn m y
    /\ s = formatYMD y m d
    /\ t = Date y m d 0 0 0 0 UTC.
Proof.
  intros H.
  destruct s as [|a [|b [|c [|e rest]]]];
    try (rewrite Parse_short in H by (cbn [String.length]; lia); discriminate H).
  rewrite Parse_unfold in H.
  destruct (isDigitByte a) eqn:Ha; cbn [negb] in H; [|discriminate H].
  rewrite atoi_4 in H by exact Ha.
  destruct (isDigitByte b) eqn:Hb; cbn [andb] in H; [|discriminate H].
  destruct (isDigitByte c) eqn:Hc; cbn [andb] in H; [|discriminate H].
  destruct (isDigitByte e) eqn:He; cbn [andb] in H; [|discriminate H].
  set (y := ((byteVal a * 10 + byteVal b) * 10 + byteVal c) * 10 + byteVal e) in *.
  destruct (skipDash rest) as [v1|] eqn:S1; [|discriminate H].
  apply skipDash_inv in S1. subst rest.
  destruct (getnum v1 true) as [[m v2]|] eqn:G1; [|discriminate H].
  apply getnum_fixed_inv in G1 as (f & g & -> & Hf & Hg & Vm).
  destruct ((m <=? 0) || (12 <? m)) eqn:Rm; [discriminate H|].
  apply orb_false_iff in Rm as [Rm1 Rm2].
  apply Z.leb_gt in Rm1. apply Z.ltb_ge in Rm2.
  destruct (skipDash v2) as [v3|] eqn:S2; [|discriminate H].
  apply skipDash_inv in S2. subst v2.
  destruct (getnum v3 true) as [[d v4]|] eqn:G2; [|discriminate H].
  apply getnum_fixed_inv in G2 as (h & i & -> & Hh & Hi & Vd).
  destruct v4 as [|x v4]; [|discriminate H].
  destruct ((d <? 1) || (daysIn m y <? d)) eqn:Rd; [discriminate H|].
  apply orb_false_iff in Rd as [Rd1 Rd2].
  apply Z.ltb_ge in Rd1. apply Z.ltb_ge in Rd2.
  injection H as <-.
  pose proof (isDigitByte_val a Ha). pose proof (isDigitByte_val b Hb).
  pose proof (isDigitByte_val c Hc). pose proof (isDigitByte_val e He).
  pose proof (isDigitByte_val f Hf). pose proof (isDigitByte_val g Hg).
  pose proof (isDigitByte_val h Hh). pose proof (isDigitByte_val i Hi).
  assert (Hy : 0 <= y <= 9999) by (unfold y; lia).
  exists y, m, d. split; [exact Hy|]. split; [lia|]. split; [lia|].
  split; [|reflexivity].
  destruct (field4 y Hy) as (a' & b' & c' & e' & Ey & Ha' & Hb' & Hc' & He' & Vy).
  destruct (field2 m ltac:(lia)) as (f' & g' & Em & Hf' & Hg' & Vm').
  destruct (field2 d ltac:(lia)) as (h' & i' & Ed & Hh' & Hi' & Vd').
  apply isDigitByte_val in Ha', Hb', Hc', He', Hf', Hg', Hh', Hi'.
  unfold formatYMD. rewrite Ey, Em, Ed. cbn [append].
  assert (a = a') by (apply byteVal_inj; unfold y in Vy; lia).
  assert (b = b') by (apply byteVal_inj; unfold y in Vy; lia).
  assert (c = c') by (apply byteVal_inj; unfold y in Vy; lia).
  assert (e = e') by (apply byteVal_inj; unfold y in Vy; lia).
  assert (f = f') by (apply byteVal_inj; lia).
  assert (g = g') by (apply byteVal_inj; lia).
  assert (h = h') by (apply byteVal_inj; lia).
  assert (i = i') by (apply byteVal_inj; lia).
  subst. reflexivity.
Qed.

Lemma dateOf_midnight (y m d : Z) :
  1 <= m <= 12 -> 1 <= d <= daysIn m y ->
  dateOf (Date y m d 0 0 0 0 UTC) = (y, m, d).
Proof. intros Hm Hd. apply dateOf_Date; [exact Hm | exact Hd | vm_compute; split; congruence]. Qed.

End ParseFacts.

Import timeFormat.

(** X12: [time.Parse] with the layout ["2006-01-02"] accepts exactly the
    ten-byte texts [YYYY-MM-DD] of the valid calendar dates of the years
    0000 to 9999 (month 1 to 12, day 1 to the length of the month, leap
    years counted).  The time it returns is midnight UTC of the date
    written; on a rejected text it returns the zero time. *)
Theorem parse_accepts_exactly_valid_dates (s : string) :
  (snd (Parse_2006_01_02 s) = None <->
   exists y m d,
     0 <= y <= 9999 /\ 1 <= m <= 12 /\ 1 <= d <= daysIn m y /\ s = formatYMD y m d)
  /\ (forall t, Parse_2006_01_02 s = (t, None) ->
        exists y m d,
          s = formatYMD y m d
          /\ dateOf t = (y, m, d) /\ absClock t = 0 /\ loc t = UTC)
  /\ (snd (Parse_2006_01_02 s) <> None -> fst (Parse_2006_01_02 s) = zero).
Proof.
  split; [|split].
  - split.
    + intros H. destruct (Parse_2006_01_02 s) as [t e] eqn:E. cbn [snd] in H. subst e.
      destruct (ParseFacts.Parse_inv s t E) as (y & m & d & Hy & Hm & Hd & Hs & _).
      exists y, m, d. auto.
    + intros (y & m & d & Hy & Hm & Hd & ->).
      rewrite ParseFacts.Parse_formatYMD by assumption. reflexivity.
  - intros t E.
    destruct (ParseFacts.Parse_inv s t E) as (y & m & d & Hy & Hm & Hd & Hs & ->).
    exists y, m, d. split; [exact Hs|].
    split; [apply ParseFacts.dateOf_midnight; assumption|]. split; [|reflexivity].
    unfold absClock, abs, Date. cbn [inst loc zoneOffset UTC].
    replace ((dayCount y m d * secondsPerDay + 0 * 3600 + 0 * 60 + 0) * nsPerSecond + 0
             - 0 * nsPerSecond + 0 * nsPerSecond)
      with (dayCount y m d * nsPerDay) by (unfold nsPerDay; lia).
    apply Z.mod_mul. unfold nsPerDay, secondsPerDay, nsPerSecond. lia.
  - intros H.
    destruct (Nat.lt_ge_cases (String.length s) 4) as [Hlen|Hlen].
    { rewrite ParseFacts.Parse_short by exact Hlen. reflexivity. }
    destruct s as [|a [|b [|c [|e rest]]]]; try (cbn [String.length] in Hlen; lia).
    rewrite ParseFacts.Parse_unfold in H |- *.
    destruct (negb (isDigitByte a)); [reflexivity|].
    destruct (atoi _) as [year|]; [|reflexivity].
    destruct (skipDash rest) as [v1|]; [|reflexivity].
    destruct (getnum v1 true) as [[m v2]|]; [|reflexivity].
    destruct ((m <=? 0) || (12 <? m)); [reflexivity|].
    destruct (skipDash v2) as [v3|]; [|reflexivity].
    destruct (getnum v3 true) as [[d v4]|]; [|reflexivity].
    destruct v4 as [|x v4]; [|reflexivity].
    destruct ((d <? 1) || (daysIn m year <? d)); [reflexivity|].
    elim H. reflexivity.
Qed.

(** X13: the text [Format] gives for a time of the years 0 to 9999 is
    accepted by [Parse], and parses to the same calendar date: a date
    printed by the program can be given back to it as [-date]. *)
Theorem format_then_parse_same_date (t : Time) :
  0 <= Year t <= 9999 ->
  exists t',
    Parse_2006_01_02 (Format_2006_01_02 t) = (t', None)
    /\ dateOf t' = dateOf t
    /\ absDays t' = absDays t.
Proof.
  intros Hy. unfold Format_2006_01_02, Year, Month, Day in *.
  pose proof (Calendar.civil_spec (absDays t)) as Hc. fold (dateOf t) in Hc.
  destruct (dateOf t) as [[y m] d] eqn:E. cbn [fst snd] in *.
  destruct Hc as (Hm & Hd & _).
  exists (Date y m d 0 0 0 0 UTC).
  split; [apply ParseFacts.Parse_formatYMD; assumption|].
  assert (D : dateOf (Date y m d 0 0 0 0 UTC) = (y, m, d))
    by (apply ParseFacts.dateOf_midnight; assumption).
  split; [exact D|]. apply dateOf_inj. rewrite D, E. reflexivity.
Qed.

Lemma format_then_parse_same_date_witness :
  exists t',
    Parse_2006_01_02 (Format_2006_01_02 (Date 2025 7 18 23 30 0 0 Samples.JST)) = (t', None)
    /\ dateOf t' = dateOf (Date 2025 7 18 23 30 0 0 Samples.JST)
    /\ absDays t' = absDays (Date 2025 7 18 23 30 0 0 Samples.JST).
Proof.
  apply (format_then_parse_same_date (Date 2025 7 18 23 30 0 0 Samples.JST)).
  vm_compute. split; discriminate.
Defined.

(** X15: the errors of [findPreviousBusinessDay].  An error is either the
    not-found error, after exactly 30 candidates, or it wraps the error of
    one oracle call: a transport error, a status code other than 200, or a
    body that does not decode. *)
Theorem find_error_kinds (oracle : Oracle) (from : Time) (e : error) :
  snd (result (findPreviousBusinessDay oracle from)) = Some e ->
  (e = ErrNotFound
   /\ List.length (probed (trace (findPreviousBusinessDay oracle from))) = 30%nat)
  \/ (exists cause, e = ErrBizDayCheck (ErrAPICall cause))
  \/ (exists code, code <> 200 /\ e = ErrBizDayCheck (ErrAPIStatus code))
  \/ (exists cause, e = ErrBizDayCheck (ErrJSONParse cause)).
Proof.
  intros Herr.
  destruct (FindFacts.find_shape oracle from) as (p & Hp & Htr & _ & Hlast).
  destruct (verdict oracle (daysBefore_ from (1 + Z.of_nat p))) as [| |e'] eqn:V.
  - destruct Hlast as [-> Hres]. rewrite Hres in Herr. injection Herr as <-.
    left. split; [reflexivity|].
    rewrite Htr, probed_probeEvents, FindFacts.preceding_length. reflexivity.
  - rewrite Hlast in Herr. discriminate Herr.
  - rewrite Hlast in Herr. injection Herr as <-. right.
    apply verdict_Failed in V as [_ V]. unfold callError, holidayCheck in V.
    destruct (reply oracle _) as [cause | code [cause | h]]; cbn [snd] in V.
    + injection V as <-. left. exists cause. reflexivity.
    + destruct (code =? StatusOK) eqn:Hc; cbn [negb snd] in V; injection V as <-.
      * right. right. exists cause. reflexivity.
      * right. left. exists code. apply Z.eqb_neq in Hc. split; [exact Hc | reflexivity].
    + destruct (code =? StatusOK) eqn:Hc; cbn [negb snd] in V; [discriminate V|].
      injection V as <-.
      right. left. exists code. apply Z.eqb_neq in Hc. split; [exact Hc | reflexivity].
Qed.

Lemma find_error_kinds_witness :
  (ErrBizDayCheck (ErrAPICall "timeout") = ErrNotFound
   /\ List.length (probed (trace (findPreviousBusinessDay Samples.outage
                                    (Samples.day 2025 7 22)))) = 30%nat)
  \/ (exists cause, ErrBizDayCheck (ErrAPICall "timeout") = ErrBizDayCheck (ErrAPICall cause))
  \/ (exists code, code <> 200
        /\ ErrBizDayCheck (ErrAPICall "timeout") = ErrBizDayCheck (ErrAPIStatus code))
  \/ (exists cause, ErrBizDayCheck (ErrAPICall "timeout") = ErrBizDayCheck (ErrJSONParse cause)).
Proof.
  apply (find_error_kinds Samples.outage (Samples.day 2025 7 22)).
  vm_compute. reflexivity.
Defined.

(** X16: more holidays never give a later result.  If an oracle that
    never fails is replaced by one that reports at least the same days as
    holidays, and the search still succeeds, then the search with the first
    oracle succeeds too, on the same day or a later one. *)
Theorem more_holidays_earlier_result (o1 o2 : Oracle) (from d2 : Time) :
  (forall y m d, reportedYMD o1 y m d <> None) ->
  (forall y m d, reportedYMD o1 y m d = Some true -> reportedYMD o2 y m d = Some true) ->
  result (findPreviousBusinessDay o2 from) = (d2, None) ->
  exists d1,
    result (findPreviousBusinessDay o1 from) = (d1, None)
    /\ absDays d2 <= absDays d1 < absDays from.
Proof.
  intros Hok Hmore Hres2.
  destruct (find_success o2 from d2 Hres2) as (q2 & Hq2 & -> & Hacc2 & _).
  apply verdict_Accepted in Hacc2. unfold businessDay in Hacc2.
  apply andb_true_iff in Hacc2 as [Hwk2 Hrep2]. apply negb_true_iff in Hwk2.
  assert (Hnot : verdict o1 (daysBefore_ from (1 + Z.of_nat q2)) <> Rejected).
  { intros V. apply verdict_Rejected in V as [V|V]; [congruence|].
    apply Hmore in V. unfold reported in Hrep2. rewrite V in Hrep2. discriminate Hrep2. }
  destruct (FindFacts.find_shape o1 from) as (p1 & Hp1 & _ & Hrej1 & Hlast).
  assert (Hle : (p1 <= q2)%nat).
  { destruct (Nat.le_gt_cases p1 q2) as [H|H]; [exact H|]. elim Hnot. apply Hrej1. exact H. }
  destruct (verdict o1 (daysBefore_ from (1 + Z.of_nat p1))) as [| |e] eqn:V.
  - destruct Hlast as [-> _]. assert (q2 = 29%nat) by lia. subst q2. contradiction.
  - exists (daysBefore_ from (1 + Z.of_nat p1)). split; [exact Hlast|].
    rewrite !absDays_daysBefore. lia.
  - apply verdict_Failed in V as [_ V].
    elim (Hok (Year (daysBefore_ from (1 + Z.of_nat p1)))
              (Month (daysBefore_ from (1 + Z.of_nat p1)))
              (Day (daysBefore_ from (1 + Z.of_nat p1)))).
    apply (callError_reported o1). exists e. exact V.
Qed.

Lemma more_holidays_earlier_result_witness :
  exists d1,
    result (findPreviousBusinessDay Samples.noHolidays (Samples.day 2025 7 22)) = (d1, None)
    /\ absDays (Samples.day 2025 7 18) <= absDays d1 < absDays (Samples.day 2025 7 22).
Proof.
  apply (more_holidays_earlier_result Samples.noHolidays Samples.july2025).
  - intros y m d. discriminate.
  - intros y m d H. discriminate H.
  - vm_compute. reflexivity.
Defined.
